(** * Astromech: the BLE command protocol of [astromech.py]

  A shallow embedding of the droid driver: the command codec
  ([_command], [_audio_command], [_motor_command], [_int_to_bytes]),
  the session ([__aenter__], [__aexit__], [_execute], the notification
  listeners) and the wheel and head maneuvers of [R2_Unit] and [BB_Unit].

  Python integers are [Z]; a [bytearray] is a [list Z] whose elements
  were range-checked when they were stored; an exception is the [Raise]
  outcome of a computation.  Calls into the BLE library and into
  [asyncio.sleep] are recorded, in program order, in a trace.  Console
  output ([print]) is not part of the model. *)

From Stdlib Require Import ZArith List Bool Ascii String Lia.
Import ListNotations.
Local Open Scope Z_scope.

Set Implicit Arguments.

(** ** Python values and exceptions *)

Module Py.

(** The exceptions that can leave the driver.  [External] stands for
    whatever a collaborator raises: the BLE client ([BleakError], a
    [KeyError] of the characteristic table) or a notification
    listener. *)
Inductive exn : Type :=
| ValueError
| OverflowError
| AttributeError
| External (code : nat).

Inductive result (A : Type) : Type :=
| Val (a : A)
| Exc (e : exn).
Arguments Val {A} a.
Arguments Exc {A} e.

Definition rbind {A B} (r : result A) (k : A -> result B) : result B :=
  match r with
  | Val a => k a
  | Exc e => Exc e
  end.

Definition bytes := list Z.

(** [range(0, 256)], the test every store into a bytearray makes. *)
Definition is_byte (b : Z) : bool := (0 <=? b) && (b <? 256).

(** [bytearray.append(b)]: ValueError unless [b] is in range(0, 256). *)
Definition append (data : bytes) (b : Z) : result bytes :=
  if is_byte b then Val (data ++ [b]) else Exc ValueError.

(** [bytearray([x0, x1, ...])]: the elements are stored left to right,
    each under the same range check. *)
Fixpoint bytearray_from (data : bytes) (xs : list Z) : result bytes :=
  match xs with
  | [] => Val data
  | x :: xs' => rbind (append data x) (fun data' => bytearray_from data' xs')
  end.

Definition bytearray (xs : list Z) : result bytes := bytearray_from [] xs.

(** [len(data)] as a Python integer. *)
Definition len (data : bytes) : Z := Z.of_nat (List.length data).

(** [i.to_bytes(2, 'big')]: OverflowError for a negative [i] and for
    one that does not fit 16 bits; otherwise the high byte, then the
    low byte. *)
Definition to_bytes_2_big (i : Z) : result bytes :=
  if (0 <=? i) && (i <? 65536)
  then Val [Z.land (Z.shiftr i 8) 255; Z.land i 255]
  else Exc OverflowError.

End Py.
Import Py.

Declare Scope py_scope.
Delimit Scope py_scope with py.
Notation "x <~ c1 ;; c2" := (rbind c1 (fun x => c2))
  (at level 100, c1 at next level, right associativity) : py_scope.

(** ** The enumerations *)

(** [class Direction(enum.Enum)] lists four names over two values.  An
  [Enum] keeps one member per value: LEFT and RIGHT are the members,
  FORWARD and BACKWARD are aliases of them. *)
Module Direction.
Inductive t : Type :=
| LEFT
| RIGHT.

Definition FORWARD : t := LEFT.
Definition BACKWARD : t := RIGHT.

Definition value (d : t) : Z :=
  match d with
  | LEFT => 0x00
  | RIGHT => 0x80
  end.
End Direction.

Module Motor.
Inductive t : Type :=
| LEFT
| RIGHT
| HEAD.

Definition value (m : t) : Z :=
  match m with
  | LEFT => 0x00
  | RIGHT => 0x01
  | HEAD => 0x02
  end.

(** [motor == Motor.HEAD] *)
Definition is_head (m : t) : bool :=
  match m with
  | HEAD => true
  | _ => false
  end.
End Motor.

(** ** The session object *)

(** A listener is a Python callable taking the notification buffer.  Its
  effect is on the caller's side of the program, of which the driver
  knows nothing: a state of some type [Ctx], which the call updates and
  may leave through an exception. *)
Inductive called (Ctx : Type) : Type :=
| Returned (c : Ctx)
| Thrown (e : exn) (c : Ctx).

Definition Listener (Ctx : Type) : Type := bytes -> Ctx -> called Ctx.

(** What the driver reads of a [BleakClient]. *)
Record BleakClient : Type := {
  address : string;
  is_connected : bool
}.

(** The attributes [Astromech.__init__] sets.  The four tuning values
  come from the chassis file [config/droids/<type>.yml]; [_client] is
  only annotated in [__init__] and does not exist before [__aenter__]
  assigns it. *)
Record Astromech (Ctx : Type) : Type := {
  _wheel_ramp_time : Z;
  _wheel_speed : Z;
  _head_ramp_time : Z;
  _head_speed : Z;
  mac_address : string;
  _client : option BleakClient;
  _notification_listeners : list (Listener Ctx)
}.

(** ** The command codec *)

Section Codec.
Context {Ctx : Type}.
Variable self : Astromech Ctx.
Local Open Scope py_scope.

(** [_int_to_bytes] *)
Definition _int_to_bytes (i : Z) : result bytes := to_bytes_2_big i.

(** [Astromech._command] *)
Definition _command (command_id : Z) (command_data : bytes) : result bytes :=
  let data := [] in
  data <~ append data (0x1f + 4 + len command_data) ;;
  data <~ append data 0x42 ;;
  data <~ append data command_id ;;
  data <~ append data (0x40 + len command_data) ;;
  Val (data ++ command_data).

(** [Astromech._audio_command] *)
Definition _audio_command (cmd : Z) (param : option Z) : result bytes :=
  command_data <~ bytearray [0x44; 0x00; cmd] ;;
  command_data <~ match param with
                  | Some p => append command_data p
                  | None => Val command_data
                  end ;;
  _command 0x0f command_data.

(** [Astromech._motor_command] *)
Definition _motor_command (direction : Direction.t) (motor : Motor.t)
    (speed ramp_time : option Z) (delay_after : Z) : result bytes :=
  let speed_value :=
    match speed with
    | Some v => v
    | None => if Motor.is_head motor then _head_speed self else _wheel_speed self
    end in
  let ramp_value :=
    match ramp_time with
    | Some v => v
    | None => if Motor.is_head motor then _head_ramp_time self
              else _wheel_ramp_time self
    end in
  command_data <~ bytearray [Z.lor (Direction.value direction) (Motor.value motor);
                             speed_value] ;;
  ramp_bytes <~ _int_to_bytes ramp_value ;;
  let command_data := command_data ++ ramp_bytes in
  delay_bytes <~ _int_to_bytes delay_after ;;
  let command_data := command_data ++ delay_bytes in
  _command 0x05 command_data.

End Codec.

(** ** Python numbers: the conversions to float *)

Module PyFloat.

(** The value of [float(i)].  An integer of at most 53 bits is a double
    as it is; a longer one is rounded to 53 bits, ties to even, and
    OverflowError is raised when the rounded value leaves the doubles. *)
Definition float_of_int (i : Z) : result Z :=
  let a := Z.abs i in
  let e := Z.log2 a in
  let r :=
    if e <? 53 then a
    else
      let sh := e - 52 in
      let q := Z.shiftr a sh in
      let rem := Z.land a (Z.ones sh) in
      let half := Z.shiftl 1 (sh - 1) in
      let up := (half <? rem) || ((rem =? half) && Z.odd q) in
      Z.shiftl (if up then q + 1 else q) sh in
  if r <? 2 ^ 1024 then Val (Z.sgn i * r) else Exc OverflowError.

(** [int(x / 2.0)] for an integer-valued double [x]: halving a double is
    exact, and [int] drops the fraction, toward zero. *)
Definition int_of_halved (x : Z) : Z := Z.quot x 2.

(** [int(float(speed) / 2.0)] *)
Definition halved (speed : Z) : result Z :=
  rbind (float_of_int speed) (fun x => Val (int_of_halved x)).

(** Where the doubles end: a magnitude of 2^1024 - 2^970 or more, half
    way from the largest double to 2^1024, is rounded out of them. *)
Definition overflow_threshold : Z := 2 ^ 1024 - 2 ^ 970.

(** [delay_ms / 1000] on an integer: the quotient is rounded to the
    nearest double, and OverflowError is raised when the rounded quotient
    leaves the doubles.  The double is kept as the count of thousandths
    it was computed from. *)
Definition div_1000 (delay_ms : Z) : result Z :=
  if Z.abs delay_ms <? 1000 * overflow_threshold
  then Val delay_ms
  else Exc OverflowError.

End PyFloat.

(** ** The world the session runs in *)

(** The calls the driver makes to its collaborators, as they are made.
    [Sleep ms] is [asyncio.sleep] called for [ms] thousandths of a
    second, once the double for them has been computed. *)
Inductive event : Type :=
| Connect
| StartNotify (characteristic : Z)
| WriteGattChar (characteristic : Z) (data : bytes)
| Disconnect
| Sleep (ms : Z).

(** What the BLE client answers to one call: it returns (a write returns
    its response), or it raises, and the link may or may not survive. *)
Inductive reply : Type :=
| Ack (response : option bytes)
| Fault (e : exn) (link_kept : bool).

(** The session object together with the environment: [ble n] is the
    answer the BLE client gives to the [n]-th call made to it, [calls]
    counts the calls made so far, [trace] lists every collaborator call
    attempted, oldest first. *)
Record Sys (Ctx : Type) : Type := {
  droid : Astromech Ctx;
  ble : nat -> reply;
  calls : nat;
  trace : list event
}.

Inductive outcome (Ctx A : Type) : Type :=
| Ok (a : A) (s : Sys Ctx)
| Raise (e : exn) (s : Sys Ctx).
Arguments Ok {Ctx A} a s.
Arguments Raise {Ctx A} e s.

(** A coroutine of the driver, run to completion. *)
Definition M (Ctx A : Type) : Type := Sys Ctx -> outcome Ctx A.

Definition ret {Ctx A} (a : A) : M Ctx A := fun s => Ok a s.

Definition bind {Ctx A B} (m : M Ctx A) (k : A -> M Ctx B) : M Ctx B :=
  fun s =>
    match m s with
    | Ok a s' => k a s'
    | Raise e s' => Raise e s'
    end.

(** A pure computation evaluated inside a coroutine. *)
Definition lift {Ctx A} (r : result A) : M Ctx A :=
  fun s =>
    match r with
    | Val a => Ok a s
    | Exc e => Raise e s
    end.

(** The state an outcome ends in. *)
Definition final {Ctx A} (o : outcome Ctx A) : Sys Ctx :=
  match o with
  | Ok _ s => s
  | Raise _ s => s
  end.

Declare Scope session_scope.
Delimit Scope session_scope with session.
Notation "x <- c1 ;; c2" := (bind c1 (fun x => c2))
  (at level 100, c1 at next level, right associativity) : session_scope.
Notation "c1 ;; c2" := (bind c1 (fun _ => c2))
  (at level 100, right associativity) : session_scope.

Section Session.
Context {Ctx : Type}.
Local Open Scope session_scope.

Definition with_client (d : Astromech Ctx) (c : option BleakClient) : Astromech Ctx :=
  {| _wheel_ramp_time := _wheel_ramp_time d;
     _wheel_speed := _wheel_speed d;
     _head_ramp_time := _head_ramp_time d;
     _head_speed := _head_speed d;
     mac_address := mac_address d;
     _client := c;
     _notification_listeners := _notification_listeners d |}.

Definition with_listeners (d : Astromech Ctx) (ls : list (Listener Ctx)) : Astromech Ctx :=
  {| _wheel_ramp_time := _wheel_ramp_time d;
     _wheel_speed := _wheel_speed d;
     _head_ramp_time := _head_ramp_time d;
     _head_speed := _head_speed d;
     mac_address := mac_address d;
     _client := _client d;
     _notification_listeners := ls |}.

(** [self._client = c] *)
Definition assign_client (c : BleakClient) : M Ctx unit :=
  fun s =>
    Ok tt {| droid := with_client (droid s) (Some c);
             ble := ble s; calls := calls s; trace := trace s |}.

(** The state after a call [ev] on client [c] that leaves the link
    [up]: the call is on the trace and counted. *)
Definition record_call (s : Sys Ctx) (c : BleakClient) (ev : event) (up : bool) : Sys Ctx :=
  {| droid := with_client (droid s)
                (Some {| address := address c; is_connected := up |});
     ble := ble s;
     calls := S (calls s);
     trace := trace s ++ [ev] |}.

(** One awaited call on [self._client].  Reading the attribute before it
    exists is an AttributeError and no call is made.  Otherwise the call
    is made and answered by the environment; [on_ack] is what a
    successful call does to the link. *)
Definition client_call (ev : event) (on_ack : bool -> bool) : M Ctx (option bytes) :=
  fun s =>
    match _client (droid s) with
    | None => Raise AttributeError s
    | Some c =>
        match ble s (calls s) with
        | Ack response => Ok response (record_call s c ev (on_ack (is_connected c)))
        | Fault e link_kept => Raise e (record_call s c ev (is_connected c && link_kept))
        end
    end.

(** [await asyncio.sleep(x)] for a double [x] of [ms] thousandths; the
    caller computes [x], and that may fail before the call. *)
Definition sleep (ms : Z) : M Ctx unit :=
  fun s =>
    Ok tt {| droid := droid s; ble := ble s; calls := calls s;
             trace := trace s ++ [Sleep ms] |}.

(** [Astromech._execute]: the command goes to characteristic 13 as it
    is; the response is returned. *)
Definition _execute (command : bytes) : M Ctx (option bytes) :=
  client_call (WriteGattChar 13 command) (fun up => up).

(** [Astromech.__aenter__]: a fresh client for the droid's address,
    [connect], [start_notify] on characteristic 10 with the session's
    dispatcher, and the initialization command, twice. *)
Definition __aenter__ : M Ctx unit :=
  (fun s => assign_client {| address := mac_address (droid s);
                             is_connected := false |} s) ;;
  client_call Connect (fun _ => true) ;;
  client_call (StartNotify 10) (fun up => up) ;;
  (command <- lift (bytearray [0x22; 0x20; 0x01]) ;; _execute command) ;;
  (command <- lift (bytearray [0x22; 0x20; 0x01]) ;; _execute command) ;;
  ret tt.

(** [Astromech.__aexit__]: [self._client and self._client.is_connected]
    guards the one [disconnect]. *)
Definition __aexit__ : M Ctx unit :=
  fun s =>
    match _client (droid s) with
    | None => Raise AttributeError s
    | Some c =>
        if is_connected c
        then (client_call Disconnect (fun _ => false) ;; ret tt) s
        else Ok tt s
    end.

(** [async with droid: body], as the language runs it: [__aenter__]
    first, and if it raises nothing else happens; then the body; then
    [__aexit__], whether the body returned or raised.  [__aexit__]
    returns None, so an exception of the body is raised again after it;
    an exception of [__aexit__] itself replaces it. *)
Definition async_with {A} (body : M Ctx A) : M Ctx A :=
  fun s =>
    match __aenter__ s with
    | Raise e s1 => Raise e s1
    | Ok _ s1 =>
        match body s1 with
        | Ok a s2 =>
            match __aexit__ s2 with
            | Ok _ s3 => Ok a s3
            | Raise e' s3 => Raise e' s3
            end
        | Raise e s2 =>
            match __aexit__ s2 with
            | Ok _ s3 => Raise e s3
            | Raise e' s3 => Raise e' s3
            end
        end
    end.

(** [Astromech.listen_for_notifications] *)
Definition listen_for_notifications (callback : Listener Ctx) : M Ctx unit :=
  fun s =>
    Ok tt {| droid := with_listeners (droid s)
                        (_notification_listeners (droid s) ++ [callback]);
             ble := ble s; calls := calls s; trace := trace s |}.

(** The loop of [_notification_callback]: the listeners are called in
    list order with the same buffer; the first exception ends the loop
    and leaves it.  (A listener acts on the caller's context; one that
    registers further listeners while it runs is outside the model.) *)
Fixpoint dispatch (listeners : list (Listener Ctx)) (data : bytes) (c : Ctx) : called Ctx :=
  match listeners with
  | [] => Returned c
  | l :: rest =>
      match l data c with
      | Returned c' => dispatch rest data c'
      | Thrown e c' => Thrown e c'
      end
  end.

(** [Astromech._notification_callback] *)
Definition _notification_callback (self : Astromech Ctx) (sender : Z) (data : bytes)
    (c : Ctx) : called Ctx :=
  dispatch (_notification_listeners self) data c.

(** The driver's commands read the tuning values of the session. *)
Definition self_motor_command (direction : Direction.t) (motor : Motor.t)
    (speed ramp_time : option Z) (delay_after : Z) : M Ctx bytes :=
  fun s => lift (_motor_command (droid s) direction motor speed ramp_time delay_after) s.

(** [Astromech.stop]: [delay_ms / 1000] is computed, which can raise,
    before [asyncio.sleep] is called; [delay_after] of the two commands
    is left at its default, 0. *)
Definition stop (delay_ms : Z) : M Ctx unit :=
  (delay <- lift (PyFloat.div_1000 delay_ms) ;; sleep delay) ;;
  (command <- self_motor_command Direction.FORWARD Motor.LEFT (Some 0) None 0 ;; _execute command) ;;
  (command <- self_motor_command Direction.FORWARD Motor.RIGHT (Some 0) None 0 ;; _execute command) ;;
  ret tt.

(** [Astromech._move_wheels] *)
Definition _move_wheels (left_direction right_direction : Direction.t)
    (duration_ms : Z) (left_speed right_speed ramp_time : option Z) : M Ctx unit :=
  (command <- self_motor_command left_direction Motor.LEFT left_speed ramp_time 0 ;;
   _execute command) ;;
  (command <- self_motor_command right_direction Motor.RIGHT right_speed ramp_time 0 ;;
   _execute command) ;;
  stop duration_ms.

(** [Astromech.set_audio_group], [play_sound_from_current_group] *)
Definition set_audio_group (group_id : Z) : M Ctx (option bytes) :=
  command <- lift (_audio_command 0x1f (Some group_id)) ;; _execute command.

Definition play_sound_from_current_group (sound_id : Z) : M Ctx (option bytes) :=
  command <- lift (_audio_command 0x18 (Some sound_id)) ;; _execute command.

End Session.

(** ** The chassis classes *)

(** [class Sound] *)
Record Sound : Type := {
  group : Z;
  sound : Z;
  ms : Z
}.

Section Play.
Context {Ctx : Type}.
Local Open Scope session_scope.

(** [Astromech.play]: with [wait] set, [float(sound.ms)] is computed,
    which can raise, and [asyncio.sleep] is called with that double
    divided by 1000.0, a division that cannot overflow. *)
Definition play (snd : Sound) (wait : bool) : M Ctx unit :=
  set_audio_group (group snd) ;;
  play_sound_from_current_group (sound snd) ;;
  if wait
  then (x <- lift (PyFloat.float_of_int (ms snd)) ;; sleep x)
  else ret tt.

End Play.

Module R2_Unit.
Section R2.
Context {Ctx : Type}.
Local Open Scope session_scope.

Definition rotate_head (direction : Direction.t) (speed ramp_time : option Z)
    (delay_after : Z) : M Ctx (option bytes) :=
  command <- self_motor_command direction Motor.HEAD speed ramp_time delay_after ;;
  _execute command.

Definition center_head (speed : option Z) (stop_at_center : bool) : M Ctx (option bytes) :=
  fun s =>
    let speed_value :=
      match speed with
      | Some v => v
      | None => _head_speed (droid s)
      end in
    (command <- lift (rbind (bytearray [0x44; 0x01; speed_value;
                                        if stop_at_center then 0x00 else 0x01])
                            (_command 0x0f)) ;;
     _execute command) s.

Definition look_around (speed : option Z) (stop_at_center : bool) : M Ctx unit :=
  rotate_head Direction.LEFT speed None 0 ;;
  sleep 1500 ;;
  rotate_head Direction.RIGHT speed None 0 ;;
  sleep 1500 ;;
  if stop_at_center then (center_head speed true ;; ret tt) else ret tt.

Definition move_forward (duration_ms : Z) (speed ramp_time : option Z) : M Ctx unit :=
  _move_wheels Direction.FORWARD Direction.FORWARD duration_ms speed speed ramp_time.

Definition move_backward (duration_ms : Z) (speed ramp_time : option Z) : M Ctx unit :=
  _move_wheels Direction.BACKWARD Direction.BACKWARD duration_ms speed speed ramp_time.

Definition spin_clockwise (duration_ms : Z) (speed ramp_time : option Z) : M Ctx unit :=
  _move_wheels Direction.FORWARD Direction.BACKWARD duration_ms speed speed ramp_time.

Definition spin_counter_clockwise (duration_ms : Z) (speed ramp_time : option Z) : M Ctx unit :=
  _move_wheels Direction.BACKWARD Direction.FORWARD duration_ms speed speed ramp_time.

Definition turn_clockwise (duration_ms : Z) (speed ramp_time : option Z) : M Ctx unit :=
  _move_wheels Direction.FORWARD Direction.FORWARD duration_ms speed (Some 0) ramp_time.

Definition turn_counter_clockwise (duration_ms : Z) (speed ramp_time : option Z) : M Ctx unit :=
  _move_wheels Direction.FORWARD Direction.FORWARD duration_ms (Some 0) speed ramp_time.

(** The default of the [speed] parameter of the two drifts. *)
Definition drift_default_speed : Z := 0xa0.

(** [speed] is [None] when the caller leaves the argument out. *)
Definition drift_clockwise (duration_ms : Z) (speed ramp_time : option Z) : M Ctx unit :=
  let speed := match speed with Some v => v | None => drift_default_speed end in
  slow <- lift (PyFloat.halved speed) ;;
  _move_wheels Direction.FORWARD Direction.FORWARD duration_ms (Some speed) (Some slow) ramp_time.

Definition drift_counter_clockwise (duration_ms : Z) (speed ramp_time : option Z) : M Ctx unit :=
  let speed := match speed with Some v => v | None => drift_default_speed end in
  slow <- lift (PyFloat.halved speed) ;;
  _move_wheels Direction.FORWARD Direction.FORWARD duration_ms (Some slow) (Some speed) ramp_time.

End R2.
End R2_Unit.

Module BB_Unit.
Section BB.
Context {Ctx : Type}.
Local Open Scope session_scope.

Definition move_forward (duration_ms : Z) (speed ramp_time : option Z) : M Ctx unit :=
  _move_wheels Direction.FORWARD Direction.FORWARD duration_ms speed speed ramp_time.

Definition move_backward (duration_ms : Z) (speed ramp_time : option Z) : M Ctx unit :=
  _move_wheels Direction.BACKWARD Direction.BACKWARD duration_ms speed speed ramp_time.

Definition turn_head_clockwise (duration_ms : Z) (speed ramp_time : option Z) : M Ctx unit :=
  fun s =>
    let speed_value :=
      match speed with Some v => v | None => _head_speed (droid s) end in
    let ramp_value :=
      match ramp_time with Some v => v | None => _head_ramp_time (droid s) end in
    _move_wheels Direction.FORWARD Direction.BACKWARD duration_ms
      (Some speed_value) (Some speed_value) (Some ramp_value) s.

Definition turn_head_counter_clockwise (duration_ms : Z) (speed ramp_time : option Z) : M Ctx unit :=
  fun s =>
    let speed_value :=
      match speed with Some v => v | None => _head_speed (droid s) end in
    let ramp_value :=
      match ramp_time with Some v => v | None => _head_ramp_time (droid s) end in
    _move_wheels Direction.BACKWARD Direction.FORWARD duration_ms
      (Some speed_value) (Some speed_value) (Some ramp_value) s.

End BB.
End BB_Unit.

(** ** Measures on traces, and sample sessions *)

Definition is_disconnect (ev : event) : bool :=
  match ev with
  | Disconnect => true
  | _ => false
  end.

(** How many times [disconnect] was called. *)
Definition disconnect_attempts (t : list event) : nat :=
  List.length (filter is_disconnect t).

(** The link, as [__aexit__] reads it. *)
Definition link_up {Ctx} (s : Sys Ctx) : bool :=
  match _client (droid s) with
  | Some c => is_connected c
  | None => false
  end.

(** The four calls of [__aenter__], in order. *)
Definition startup_calls : list event :=
  [Connect; StartNotify 10;
   WriteGattChar 13 [0x22; 0x20; 0x01]; WriteGattChar 13 [0x22; 0x20; 0x01]].

(** The BLE client answers the next [n] calls without raising. *)
Definition answers_next {Ctx} (s : Sys Ctx) (n : nat) : Prop :=
  forall k, (k < n)%nat -> exists r, ble s (k + calls s)%nat = Ack r.

(** A droid right after [__init__], with the tuning of a chassis whose
    wheels run at 0x60 with a ramp of 300 ms, at the address the sample
    script drives. *)
Definition sample_droid (Ctx : Type) : Astromech Ctx :=
  {| _wheel_ramp_time := 300;
     _wheel_speed := 0x60;
     _head_ramp_time := 200;
     _head_speed := 0x40;
     mac_address := "F7:E6:74:95:E5:53";
     _client := None;
     _notification_listeners := [] |}.

(** A BLE client that answers every call, and one whose [n]-th call
    raises while the link stays up. *)
Definition steady : nat -> reply := fun _ => Ack None.

Definition faulty_at (n : nat) : nat -> reply :=
  fun k => if Nat.eqb k n then Fault (External 0) true else Ack None.

Definition sample_sys (Ctx : Type) (answers : nat -> reply) : Sys Ctx :=
  {| droid := sample_droid Ctx; ble := answers; calls := 0; trace := [] |}.

(** The sample session once [__aenter__] has run against a client that
    answers. *)
Definition ready_sys : Sys unit := final (__aenter__ (sample_sys unit steady)).

(** Listeners that note their call in the caller's log; the second kind
    raises after doing so. *)
Definition noting (id : nat) : Listener (list (nat * bytes)) :=
  fun data log => Returned (log ++ [(id, data)]).

Definition failing (id : nat) : Listener (list (nat * bytes)) :=
  fun data log => Thrown (External id) (log ++ [(id, data)]).

(** ** Discovery and the byte dump *)

(** What [scan] reads of a device that [BleakScanner.discover] returns:
    its advertised name, which may be missing, and the result of
    [d.details['props']['Address']], which is [None] when that lookup
    raises. *)
Module BLEDevice.
Record t : Type := {
  name : option string;
  details_props_address : option string
}.
End BLEDevice.

(** [class DiscoveredDevice] *)
Module DiscoveredDevice.
Record t : Type := {
  mac_address : string;
  name : string
}.

(** [DiscoveredDevice.__str__] *)
Definition __str__ (self : t) : string :=
  (name self ++ ": " ++ mac_address self)%string.
End DiscoveredDevice.

(** [d.name in names] *)
Definition name_in (d : BLEDevice.t) (names : list string) : bool :=
  match BLEDevice.name d with
  | Some n => existsb (String.eqb n) names
  | None => false
  end.

(** The loop of [scan] over the discovered devices; [None] is the
    exception of the address lookup leaving the loop. *)
Fixpoint scan_loop (names : list string) (discovered : list BLEDevice.t)
    (devices : list DiscoveredDevice.t) : option (list DiscoveredDevice.t) :=
  match discovered with
  | [] => Some devices
  | d :: rest =>
      if name_in d names
      then
        match BLEDevice.details_props_address d, BLEDevice.name d with
        | Some a, Some n =>
            scan_loop names rest
              (devices ++ [{| DiscoveredDevice.mac_address := a;
                              DiscoveredDevice.name := n |}])
        | _, _ => None
        end
      else scan_loop names rest devices
  end.

(** [scan], given what the discovery returned.  [bt_names if bt_names
    else ['DROID']]: no list and the empty list both stand for the
    default name. *)
Definition scan (bt_names : option (list string)) (discovered : list BLEDevice.t)
    : option (list DiscoveredDevice.t) :=
  let names :=
    match bt_names with
    | Some (n :: ns) => n :: ns
    | _ => ["DROID"%string]
    end in
  scan_loop names discovered [].

(** One hexadecimal digit, lower case, as [bytearray.hex] writes it. *)
Definition hex_digit (n : Z) : Ascii.ascii :=
  match n with
  | 0 => "0" | 1 => "1" | 2 => "2" | 3 => "3"
  | 4 => "4" | 5 => "5" | 6 => "6" | 7 => "7"
  | 8 => "8" | 9 => "9" | 10 => "a" | 11 => "b"
  | 12 => "c" | 13 => "d" | 14 => "e" | _ => "f"
  end%char.

(** [_dump_bytes]: [data.hex(bytes_per_sep=1, sep=' ')], two digits a
    byte and one space between two bytes. *)
Fixpoint _dump_bytes (data : bytes) : string :=
  match data with
  | [] => EmptyString
  | b :: rest =>
      String (hex_digit (b / 16))
        (String (hex_digit (b mod 16))
           match rest with
           | [] => EmptyString
           | _ :: _ => String " " (_dump_bytes rest)
           end)
  end.

(** * Properties *)

Unset Implicit Arguments.

(** ** The codec *)

Lemma is_byte_range (b : Z) : is_byte b = true <-> 0 <= b < 256.
Proof. unfold is_byte. rewrite andb_true_iff, Z.leb_le, Z.ltb_lt. tauto. Qed.

Lemma append_byte (data : bytes) (b : Z) :
  0 <= b < 256 -> append data b = Val (data ++ [b]).
Proof.
  intros Hb. unfold append.
  now rewrite (proj2 (is_byte_range b) Hb).
Qed.

Lemma append_rejects (data : bytes) (b : Z) :
  ~ 0 <= b < 256 -> append data b = Exc ValueError.
Proof.
  intros Hb. unfold append.
  destruct (is_byte b) eqn:E; [|reflexivity].
  now apply is_byte_range in E.
Qed.

Lemma len_nonneg (data : bytes) : 0 <= len data.
Proof. unfold len. lia. Qed.

(** The frame [_command] builds when every header byte is a byte. *)
Lemma _command_builds (command_id : Z) (command_data : bytes) :
  0 <= command_id < 256 -> len command_data <= 191 ->
  _command command_id command_data
  = Val (0x1f + 4 + len command_data :: 0x42 :: command_id
         :: 0x40 + len command_data :: command_data).
Proof.
  intros Hid Hlen. pose proof (len_nonneg command_data) as H0.
  unfold _command.
  rewrite append_byte by lia. cbn [rbind app].
  rewrite append_byte by lia. cbn [rbind app].
  rewrite append_byte by lia. cbn [rbind app].
  rewrite append_byte by lia. cbn [rbind app].
  reflexivity.
Qed.

(** Outside that domain no frame is built: the store of the offending
    header byte raises ValueError. *)
Lemma _command_rejects (command_id : Z) (command_data : bytes) :
  ~ (0 <= command_id < 256 /\ len command_data <= 191) ->
  _command command_id command_data = Exc ValueError.
Proof.
  intros Hout. pose proof (len_nonneg command_data) as H0.
  unfold _command.
  destruct (Z_le_gt_dec (len command_data) 220) as [H1|H1].
  - rewrite append_byte by lia. cbn [rbind app].
    rewrite append_byte by lia. cbn [rbind app].
    destruct (Z_le_gt_dec 0 command_id) as [H2|H2];
      [destruct (Z_lt_ge_dec command_id 256) as [H3|H3]|].
    + rewrite append_byte by lia. cbn [rbind app].
      rewrite append_rejects by lia. reflexivity.
    + rewrite append_rejects by lia. reflexivity.
    + rewrite append_rejects by lia. reflexivity.
  - rewrite append_rejects by lia. reflexivity.
Qed.

(** [i.to_bytes(2, 'big')] is the big-endian pair of [i]. *)
Lemma _int_to_bytes_big_endian (i : Z) :
  0 <= i < 65536 -> _int_to_bytes i = Val [i / 256; i mod 256].
Proof.
  intros Hi. unfold _int_to_bytes, to_bytes_2_big.
  replace ((0 <=? i) && (i <? 65536)) with true
    by (symmetry; rewrite andb_true_iff, Z.leb_le, Z.ltb_lt; lia).
  change 255 with (Z.ones 8).
  rewrite !Z.land_ones, Z.shiftr_div_pow2 by lia.
  change (2 ^ 8) with 256.
  rewrite (Z.mod_small (i / 256) 256)
    by (split; [apply Z.div_pos; lia | apply Z.div_lt_upper_bound; lia]).
  reflexivity.
Qed.

(** [bytearray(xs)] stores [xs] when all of it is bytes, and raises
    ValueError otherwise. *)
Lemma bytearray_from_spec (xs : list Z) : forall data : bytes,
  bytearray_from data xs
  = if forallb is_byte xs then Val (data ++ xs) else Exc ValueError.
Proof.
  induction xs as [|x xs IH]; intros data; cbn [bytearray_from forallb].
  - now rewrite app_nil_r.
  - unfold append. destruct (is_byte x); cbn [rbind andb]; [|reflexivity].
    rewrite IH, <- app_assoc. reflexivity.
Qed.

Lemma bytearray_spec (xs : list Z) :
  bytearray xs = if forallb is_byte xs then Val xs else Exc ValueError.
Proof. unfold bytearray. now rewrite bytearray_from_spec. Qed.

Lemma bytearray_pair (a b : Z) :
  0 <= a < 256 -> 0 <= b < 256 -> bytearray [a; b] = Val [a; b].
Proof.
  intros Ha Hb. rewrite bytearray_spec. cbn [forallb].
  now rewrite !(proj2 (is_byte_range _)) by assumption.
Qed.

Lemma direction_motor_byte (d : Direction.t) (m : Motor.t) :
  0 <= Z.lor (Direction.value d) (Motor.value m) < 256.
Proof. destruct d, m; cbn; lia. Qed.

(** C1.  For every command id and payload that [_command] frames (a
    command id that is a byte and a payload of at most 191 bytes, so
    that both length bytes are bytes), the frame has byte 0 equal to
    0x1F + 4 + len(payload), byte 1 equal to the sync byte 0x42, byte 2
    equal to the command id, byte 3 equal to 0x40 + len(payload) and the
    payload from byte 4 on; byte 0 is the number of the bytes after it
    plus the fixed overhead 0x20. *)
Theorem command_frame_layout (command_id : Z) (command_data : bytes) :
  0 <= command_id < 256 -> len command_data <= 191 ->
  exists frame,
    _command command_id command_data = Val frame /\
    nth_error frame 0 = Some (0x1f + 4 + len command_data) /\
    nth_error frame 1 = Some 0x42 /\
    nth_error frame 2 = Some command_id /\
    nth_error frame 3 = Some (0x40 + len command_data) /\
    skipn 4 frame = command_data /\
    nth_error frame 0 = Some (len (tl frame) + 0x20).
Proof.
  intros Hid Hlen. eexists. split; [apply _command_builds; assumption|].
  repeat split; cbn [nth_error skipn tl].
  f_equal. unfold len. cbn [List.length]. lia.
Qed.

Lemma command_frame_layout_witness :
  exists frame,
    _command 0x0f [0x44; 0x00; 0x18; 0x02] = Val frame /\
    nth_error frame 0 = Some 0x27 /\
    nth_error frame 1 = Some 0x42 /\
    nth_error frame 2 = Some 0x0f /\
    nth_error frame 3 = Some 0x44 /\
    skipn 4 frame = [0x44; 0x00; 0x18; 0x02] /\
    nth_error frame 0 = Some (len (tl frame) + 0x20).
Proof.
  apply (command_frame_layout 0x0f [0x44; 0x00; 0x18; 0x02]);
    [lia | vm_compute; discriminate].
Defined.

(** The frame of a motor command whose fields fit their widths. *)
Lemma _motor_command_frame {Ctx} (self : Astromech Ctx)
    (direction : Direction.t) (motor : Motor.t)
    (speed ramp_time : option Z) (delay_after : Z) :
  let speed_value :=
    match speed with
    | Some v => v
    | None => if Motor.is_head motor then _head_speed self else _wheel_speed self
    end in
  let ramp_value :=
    match ramp_time with
    | Some v => v
    | None => if Motor.is_head motor then _head_ramp_time self
              else _wheel_ramp_time self
    end in
  0 <= speed_value < 256 -> 0 <= ramp_value < 65536 -> 0 <= delay_after < 65536 ->
  _motor_command self direction motor speed ramp_time delay_after
  = Val [0x29; 0x42; 0x05; 0x46;
         Z.lor (Direction.value direction) (Motor.value motor); speed_value;
         ramp_value / 256; ramp_value mod 256;
         delay_after / 256; delay_after mod 256].
Proof.
  intros speed_value ramp_value Hs Hr Hd.
  unfold _motor_command. fold speed_value. fold ramp_value.
  rewrite bytearray_pair by (apply direction_motor_byte || assumption).
  cbn [rbind].
  rewrite !_int_to_bytes_big_endian by assumption.
  cbn [rbind app].
  rewrite _command_builds by (unfold len; cbn; lia).
  reflexivity.
Qed.


(** ** Running the session *)



(** ** The claims about the codec *)



(** C3, as the code has it.  The framed motor command for FORWARD, LEFT,
    speed 0x80, ramp 500 and delay 0 is 29 42 05 46 00 80 01 F4 00 00:
    the payload has six bytes, so byte 0 is 0x1F + 4 + 6 and byte 3 is
    0x40 + 6. *)
Theorem motor_command_forward_left_bytes {Ctx} (self : Astromech Ctx) :
  _motor_command self Direction.FORWARD Motor.LEFT (Some 0x80) (Some 500) 0
  = Val [0x29; 0x42; 0x05; 0x46; 0x00; 0x80; 0x01; 0xF4; 0x00; 0x00].
Proof.
  rewrite _motor_command_frame by (cbn; lia).
  reflexivity.
Qed.

(** C3, as stated, fails: the frame is not 1F 42 05 41 00 80 01 F4 00 00. *)
Lemma motor_command_forward_left_not_1F_41 :
  _motor_command (sample_droid unit) Direction.FORWARD Motor.LEFT
    (Some 0x80) (Some 500) 0
  <> Val [0x1F; 0x42; 0x05; 0x41; 0x00; 0x80; 0x01; 0xF4; 0x00; 0x00].
Proof. intros H. vm_compute in H. discriminate H. Qed.

(** ** Stepping a coroutine *)

Section Steps.
Context {Ctx : Type}.
Implicit Types (s : Sys Ctx) (c : BleakClient).

Lemma bind_ok {A B} (m : M Ctx A) (k : A -> M Ctx B) s a s' :
  m s = Ok a s' -> bind m k s = k a s'.
Proof. unfold bind. now intros ->. Qed.

Lemma client_call_ack ev on_ack s c r :
  _client (droid s) = Some c -> ble s (calls s) = Ack r ->
  client_call ev on_ack s = Ok r (record_call s c ev (on_ack (is_connected c))).
Proof. unfold client_call. now intros -> ->. Qed.

(** A motor command that encodes, written to a client that answers. *)
Lemma send_motor_ack s c direction motor speed ramp_time delay_after frame r :
  _client (droid s) = Some c -> ble s (calls s) = Ack r ->
  _motor_command (droid s) direction motor speed ramp_time delay_after = Val frame ->
  bind (self_motor_command direction motor speed ramp_time delay_after) _execute s
  = Ok r (record_call s c (WriteGattChar 13 frame) (is_connected c)).
Proof.
  intros Hc Hb Hf. unfold bind, self_motor_command, lift. rewrite Hf.
  unfold _execute. now apply client_call_ack.
Qed.

(** [delay_ms / 1000] is a double below the threshold, and an
    OverflowError from it on. *)
Lemma div_1000_fits (delay_ms : Z) :
  Z.abs delay_ms < 1000 * PyFloat.overflow_threshold ->
  PyFloat.div_1000 delay_ms = Val delay_ms.
Proof.
  intros H. unfold PyFloat.div_1000.
  now rewrite (proj2 (Z.ltb_lt _ _) H).
Qed.

Lemma div_1000_overflows (delay_ms : Z) :
  1000 * PyFloat.overflow_threshold <= Z.abs delay_ms ->
  PyFloat.div_1000 delay_ms = Exc OverflowError.
Proof.
  intros H. unfold PyFloat.div_1000.
  now rewrite (proj2 (Z.ltb_ge _ _) H).
Qed.

(** The sleep of [stop], for a delay that divides to a double. *)
Lemma timed_sleep s delay_ms :
  Z.abs delay_ms < 1000 * PyFloat.overflow_threshold ->
  bind (lift (PyFloat.div_1000 delay_ms)) sleep s
  = Ok tt {| droid := droid s; ble := ble s; calls := calls s;
             trace := trace s ++ [Sleep delay_ms] |}.
Proof.
  intros H. unfold bind, lift. rewrite (div_1000_fits delay_ms H). reflexivity.
Qed.

(** A delay that does not divide to a double: the error leaves before
    [asyncio.sleep] is called. *)
Lemma timed_sleep_overflows s delay_ms :
  1000 * PyFloat.overflow_threshold <= Z.abs delay_ms ->
  bind (lift (PyFloat.div_1000 delay_ms)) sleep s = Raise OverflowError s.
Proof.
  intros H. unfold bind, lift. rewrite (div_1000_overflows delay_ms H). reflexivity.
Qed.

End Steps.

(** ** Wheel maneuvers *)

Section Wheels.
Context {Ctx : Type}.
Implicit Types (s : Sys Ctx) (c : BleakClient).

(** [stop] against a client that answers: the sleep, then the two
    zero-speed commands. *)
Lemma stop_run s c delay_ms stop_left stop_right :
  _client (droid s) = Some c ->
  answers_next s 2 ->
  Z.abs delay_ms < 1000 * PyFloat.overflow_threshold ->
  _motor_command (droid s) Direction.FORWARD Motor.LEFT (Some 0) None 0 = Val stop_left ->
  _motor_command (droid s) Direction.FORWARD Motor.RIGHT (Some 0) None 0 = Val stop_right ->
  exists s',
    stop delay_ms s = Ok tt s' /\
    trace s' = trace s ++ [Sleep delay_ms; WriteGattChar 13 stop_left;
                           WriteGattChar 13 stop_right].
Proof.
  intros Hc Hans Hfits Hl Hr.
  destruct (Hans 0%nat ltac:(lia)) as [r0 H0].
  destruct (Hans 1%nat ltac:(lia)) as [r1 H1].
  cbn [Nat.add] in H0, H1.
  set (s0 := {| droid := droid s; ble := ble s; calls := calls s;
                trace := trace s ++ [Sleep delay_ms] |}).
  set (s1 := record_call s0 c (WriteGattChar 13 stop_left) (is_connected c)).
  set (c1 := {| address := address c; is_connected := is_connected c |}).
  set (s2 := record_call s1 c1 (WriteGattChar 13 stop_right) (is_connected c1)).
  exists s2. split.
  - unfold stop.
    rewrite (bind_ok _ _ s tt s0) by (apply timed_sleep; exact Hfits).
    rewrite (bind_ok _ _ s0 r0 s1)
      by (apply send_motor_ack; assumption).
    rewrite (bind_ok _ _ s1 r1 s2)
      by (apply send_motor_ack; [reflexivity | exact H1 | exact Hr]).
    reflexivity.
  - cbn [s2 s1 s0 record_call trace]. rewrite <- !app_assoc. reflexivity.
Qed.

(** [_move_wheels] against a client that answers, with commands that
    encode: the trace it adds. *)
Lemma _move_wheels_run s c left_direction right_direction duration_ms
    left_speed right_speed ramp_time go_left go_right stop_left stop_right :
  _client (droid s) = Some c ->
  answers_next s 4 ->
  Z.abs duration_ms < 1000 * PyFloat.overflow_threshold ->
  _motor_command (droid s) left_direction Motor.LEFT left_speed ramp_time 0 = Val go_left ->
  _motor_command (droid s) right_direction Motor.RIGHT right_speed ramp_time 0 = Val go_right ->
  _motor_command (droid s) Direction.FORWARD Motor.LEFT (Some 0) None 0 = Val stop_left ->
  _motor_command (droid s) Direction.FORWARD Motor.RIGHT (Some 0) None 0 = Val stop_right ->
  exists s',
    _move_wheels left_direction right_direction duration_ms
      left_speed right_speed ramp_time s = Ok tt s' /\
    trace s' = trace s ++ [WriteGattChar 13 go_left; WriteGattChar 13 go_right;
                           Sleep duration_ms;
                           WriteGattChar 13 stop_left; WriteGattChar 13 stop_right].
Proof.
  intros Hc Hans Hfits Hgl Hgr Hsl Hsr.
  destruct (Hans 0%nat ltac:(lia)) as [r0 H0].
  destruct (Hans 1%nat ltac:(lia)) as [r1 H1].
  cbn [Nat.add] in H0, H1.
  set (s1 := record_call s c (WriteGattChar 13 go_left) (is_connected c)).
  set (c1 := {| address := address c; is_connected := is_connected c |}).
  set (s2 := record_call s1 c1 (WriteGattChar 13 go_right) (is_connected c1)).
  set (c2 := {| address := address c1; is_connected := is_connected c1 |}).
  destruct (stop_run s2 c2 duration_ms stop_left stop_right) as (s' & Hrun & Htr).
  - reflexivity.
  - intros k Hk. cbn [s2 s1 record_call ble calls].
    replace (k + S (S (calls s)))%nat with (S (S k) + calls s)%nat by lia.
    apply Hans. lia.
  - exact Hfits.
  - exact Hsl.
  - exact Hsr.
  - exists s'. split.
    + unfold _move_wheels.
      rewrite (bind_ok _ _ s r0 s1)
        by (apply send_motor_ack; assumption).
      rewrite (bind_ok _ _ s1 r1 s2)
        by (apply send_motor_ack; [reflexivity | exact H1 | exact Hgr]).
      exact Hrun.
    + rewrite Htr. cbn [s2 s1 record_call trace]. rewrite <- !app_assoc. reflexivity.
Qed.

(** The zero-speed command of motor [m] for a wheel ramp default [w]. *)
Lemma stop_command_bytes (self : Astromech Ctx) (m : Motor.t) :
  m <> Motor.HEAD ->
  0 <= _wheel_ramp_time self < 65536 ->
  _motor_command self Direction.FORWARD m (Some 0) None 0
  = Val [0x29; 0x42; 0x05; 0x46; Motor.value m; 0x00;
         _wheel_ramp_time self / 256; _wheel_ramp_time self mod 256; 0x00; 0x00].
Proof.
  intros Hm Hw. rewrite _motor_command_frame.
  - destruct m; [reflexivity | reflexivity | contradiction].
  - lia.
  - destruct m; [exact Hw | exact Hw | contradiction].
  - lia.
Qed.

End Wheels.

(** Every named maneuver of the two chassis classes is one call of
    [_move_wheels], with the directions and speeds of its row. *)
Lemma maneuvers_are_wheel_moves {Ctx} (duration_ms : Z) (speed ramp_time : option Z) :
  @R2_Unit.move_forward Ctx duration_ms speed ramp_time
  = _move_wheels Direction.FORWARD Direction.FORWARD duration_ms speed speed ramp_time /\
  @R2_Unit.move_backward Ctx duration_ms speed ramp_time
  = _move_wheels Direction.BACKWARD Direction.BACKWARD duration_ms speed speed ramp_time /\
  @R2_Unit.spin_clockwise Ctx duration_ms speed ramp_time
  = _move_wheels Direction.FORWARD Direction.BACKWARD duration_ms speed speed ramp_time /\
  @R2_Unit.spin_counter_clockwise Ctx duration_ms speed ramp_time
  = _move_wheels Direction.BACKWARD Direction.FORWARD duration_ms speed speed ramp_time /\
  @R2_Unit.turn_clockwise Ctx duration_ms speed ramp_time
  = _move_wheels Direction.FORWARD Direction.FORWARD duration_ms speed (Some 0) ramp_time /\
  @R2_Unit.turn_counter_clockwise Ctx duration_ms speed ramp_time
  = _move_wheels Direction.FORWARD Direction.FORWARD duration_ms (Some 0) speed ramp_time /\
  @BB_Unit.move_forward Ctx duration_ms speed ramp_time
  = _move_wheels Direction.FORWARD Direction.FORWARD duration_ms speed speed ramp_time /\
  @BB_Unit.move_backward Ctx duration_ms speed ramp_time
  = _move_wheels Direction.BACKWARD Direction.BACKWARD duration_ms speed speed ramp_time.
Proof. repeat split. Qed.


(** C10.  The two stop commands that end a wheel maneuver carry the
    chassis default wheel ramp and a zero delay, whatever ramp the caller
    gave for the motion commands.  (The maneuver reaches its stop
    commands when its motion commands encode, the client answers, and
    [duration_ms / 1000] does not overflow.) *)
Theorem stop_keeps_default_ramp {Ctx} (s : Sys Ctx) (c : BleakClient)
    (left_direction right_direction : Direction.t) (duration_ms : Z)
    (left_speed right_speed ramp_time : option Z) (go_left go_right : bytes) :
  let w := _wheel_ramp_time (droid s) in
  _client (droid s) = Some c ->
  answers_next s 4 ->
  Z.abs duration_ms < 1000 * PyFloat.overflow_threshold ->
  0 <= w < 65536 ->
  _motor_command (droid s) left_direction Motor.LEFT left_speed ramp_time 0 = Val go_left ->
  _motor_command (droid s) right_direction Motor.RIGHT right_speed ramp_time 0 = Val go_right ->
  exists s' before,
    _move_wheels left_direction right_direction duration_ms
      left_speed right_speed ramp_time s = Ok tt s' /\
    trace s' = before ++
      [WriteGattChar 13 [0x29; 0x42; 0x05; 0x46; 0x00; 0x00; w / 256; w mod 256; 0x00; 0x00];
       WriteGattChar 13 [0x29; 0x42; 0x05; 0x46; 0x01; 0x00; w / 256; w mod 256; 0x00; 0x00]] /\
    256 * (w / 256) + w mod 256 = w.
Proof.
  intros w Hc Hans Hfits Hw Hgl Hgr.
  pose proof (stop_command_bytes (droid s) Motor.LEFT ltac:(discriminate) Hw) as Hsl.
  pose proof (stop_command_bytes (droid s) Motor.RIGHT ltac:(discriminate) Hw) as Hsr.
  destruct (_move_wheels_run s c left_direction right_direction duration_ms
              left_speed right_speed ramp_time _ _ _ _ Hc Hans Hfits Hgl Hgr Hsl Hsr)
    as (s' & Hrun & Htr).
  exists s'.
  exists (trace s ++ [WriteGattChar 13 go_left; WriteGattChar 13 go_right;
                      Sleep duration_ms]).
  split; [exact Hrun|]. split.
  - rewrite Htr, <- app_assoc. reflexivity.
  - pose proof (Z.div_mod w 256). lia.
Qed.

Lemma ready_sys_answers (n : nat) : answers_next ready_sys n.
Proof. intros k _. exists None. reflexivity. Qed.


Lemma stop_keeps_default_ramp_witness :
  exists s' before,
    R2_Unit.move_forward 1000 None (Some 50) ready_sys = Ok tt s' /\
    trace s' = before ++
      [WriteGattChar 13 [0x29; 0x42; 0x05; 0x46; 0x00; 0x00; 0x01; 0x2C; 0x00; 0x00];
       WriteGattChar 13 [0x29; 0x42; 0x05; 0x46; 0x01; 0x00; 0x01; 0x2C; 0x00; 0x00]].
Proof.
  destruct (stop_keeps_default_ramp ready_sys
              {| address := "F7:E6:74:95:E5:53"; is_connected := true |}
              Direction.FORWARD Direction.FORWARD 1000 None None (Some 50)
              _ _ eq_refl (ready_sys_answers 4) ltac:(vm_compute; reflexivity)
              ltac:(cbn; lia) eq_refl eq_refl)
    as (s' & before & Hrun & Htr & _).
  exists s', before. split; [exact Hrun | exact Htr].
Defined.

(** ** Drift *)

(** [float] is exact on the integers of at most 53 bits, which include
    every speed a motor command can carry, and halving then truncates
    toward zero. *)
Lemma halved_exact (speed : Z) :
  - 2 ^ 53 < speed < 2 ^ 53 -> PyFloat.halved speed = Val (Z.quot speed 2).
Proof.
  intros Hs. unfold PyFloat.halved, PyFloat.float_of_int, PyFloat.int_of_halved.
  assert (Ha : Z.abs speed < 2 ^ 53) by lia.
  assert (Hlog : (Z.log2 (Z.abs speed) <? 53) = true).
  { apply Z.ltb_lt. destruct (Z.eq_dec (Z.abs speed) 0) as [E|E].
    - rewrite E. cbn. lia.
    - apply Z.log2_lt_pow2; lia. }
  rewrite Hlog.
  assert (Hbig : (Z.abs speed <? 2 ^ 1024) = true).
  { apply Z.ltb_lt. apply Z.lt_le_trans with (2 ^ 53); [exact Ha|].
    apply Z.pow_le_mono_r; lia. }
  rewrite Hbig. cbn [rbind].
  now rewrite Z.mul_comm, Z.abs_sgn.
Qed.

(** C9.  A drift passes the requested speed to one wheel and
    [int(float(speed) / 2.0)], the speed halved and truncated toward
    zero, to the other; the speed left out is 0xA0.  Clockwise the left
    wheel is the fast one, counter-clockwise the right one: with speed
    0x80 the left/right speeds are (0x80, 0x40) and (0x40, 0x80). *)
Theorem drift_halves_speed {Ctx} (s : Sys Ctx) (duration_ms speed : Z)
    (ramp_time : option Z) :
  - 2 ^ 53 < speed < 2 ^ 53 ->
  R2_Unit.drift_clockwise duration_ms (Some speed) ramp_time s
  = _move_wheels Direction.FORWARD Direction.FORWARD duration_ms
      (Some speed) (Some (Z.quot speed 2)) ramp_time s /\
  R2_Unit.drift_counter_clockwise duration_ms (Some speed) ramp_time s
  = _move_wheels Direction.FORWARD Direction.FORWARD duration_ms
      (Some (Z.quot speed 2)) (Some speed) ramp_time s /\
  R2_Unit.drift_clockwise duration_ms None ramp_time s
  = _move_wheels Direction.FORWARD Direction.FORWARD duration_ms
      (Some 0xA0) (Some 0x50) ramp_time s /\
  R2_Unit.drift_counter_clockwise duration_ms None ramp_time s
  = _move_wheels Direction.FORWARD Direction.FORWARD duration_ms
      (Some 0x50) (Some 0xA0) ramp_time s /\
  R2_Unit.drift_clockwise duration_ms (Some 0x80) ramp_time s
  = _move_wheels Direction.FORWARD Direction.FORWARD duration_ms
      (Some 0x80) (Some 0x40) ramp_time s /\
  R2_Unit.drift_counter_clockwise duration_ms (Some 0x80) ramp_time s
  = _move_wheels Direction.FORWARD Direction.FORWARD duration_ms
      (Some 0x40) (Some 0x80) ramp_time s /\
  Z.abs (Z.quot speed 2) <= Z.abs speed /\
  Z.abs speed - 1 <= 2 * Z.abs (Z.quot speed 2) <= Z.abs speed.
Proof.
  intros Hs.
  assert (Hgen : forall v, - 2 ^ 53 < v < 2 ^ 53 ->
    R2_Unit.drift_clockwise duration_ms (Some v) ramp_time s
    = _move_wheels Direction.FORWARD Direction.FORWARD duration_ms
        (Some v) (Some (Z.quot v 2)) ramp_time s /\
    R2_Unit.drift_counter_clockwise duration_ms (Some v) ramp_time s
    = _move_wheels Direction.FORWARD Direction.FORWARD duration_ms
        (Some (Z.quot v 2)) (Some v) ramp_time s).
  { intros v Hv.
    unfold R2_Unit.drift_clockwise, R2_Unit.drift_counter_clockwise, bind, lift.
    rewrite (halved_exact v Hv). split; reflexivity. }
  assert (H53 : 2 ^ 53 = 9007199254740992) by reflexivity.
  destruct (Hgen speed Hs) as [Hcw Hccw].
  destruct (Hgen 0xA0 ltac:(lia)) as [Hdcw Hdccw].
  destruct (Hgen 0x80 ltac:(lia)) as [Hecw Heccw].
  split; [exact Hcw|]. split; [exact Hccw|].
  split; [exact Hdcw|]. split; [exact Hdccw|].
  split; [exact Hecw|]. split; [exact Heccw|].
  clear Hgen Hcw Hccw Hdcw Hdccw Hecw Heccw H53 Hs.
  Z.to_euclidean_division_equations. lia.
Qed.

Lemma drift_halves_speed_witness :
  R2_Unit.drift_clockwise 1000 (Some 0x81) None ready_sys
  = _move_wheels Direction.FORWARD Direction.FORWARD 1000
      (Some 0x81) (Some 0x40) None ready_sys.
Proof.
  apply (drift_halves_speed ready_sys 1000 0x81 None).
  change (2 ^ 53) with 9007199254740992. lia.
Defined.

(** ** Session start and teardown *)

Section Lifecycle.
Context {Ctx : Type}.
Implicit Types (s : Sys Ctx) (c : BleakClient).

Ltac run_aenter :=
  unfold __aenter__, bind, assign_client, _execute, client_call, lift, ret;
  change (bytearray [0x22; 0x20; 0x01])
    with (@Val bytes [0x22; 0x20; 0x01]);
  cbn [droid with_client _client ble calls trace record_call
       is_connected address].

(** [__aenter__] against a client that answers its four calls. *)
Lemma __aenter___run s :
  answers_next s 4 ->
  exists s',
    __aenter__ s = Ok tt s' /\
    trace s' = trace s ++ startup_calls /\
    link_up s' = true /\
    ble s' = ble s /\
    calls s' = (4 + calls s)%nat.
Proof.
  intros Hans.
  destruct (Hans 0%nat ltac:(lia)) as [r0 H0].
  destruct (Hans 1%nat ltac:(lia)) as [r1 H1].
  destruct (Hans 2%nat ltac:(lia)) as [r2 H2].
  destruct (Hans 3%nat ltac:(lia)) as [r3 H3].
  cbn [Nat.add] in H0, H1, H2, H3.
  run_aenter. rewrite H0.
  cbn [droid with_client _client ble calls trace record_call]. rewrite H1.
  cbn [droid with_client _client ble calls trace record_call]. rewrite H2.
  cbn [droid with_client _client ble calls trace record_call]. rewrite H3.
  eexists. split; [reflexivity|].
  cbn [trace record_call link_up droid with_client _client is_connected ble calls].
  rewrite <- !app_assoc. repeat split.
Qed.

(** Whatever the client answers, [__aenter__] makes a prefix of its four
    calls and nothing else: a call is made only after the one before it
    has returned. *)
Lemma __aenter___prefix s :
  exists k, trace (final (__aenter__ s)) = trace s ++ firstn k startup_calls.
Proof.
  run_aenter.
  destruct (ble s (calls s)) as [r0|e0 k0];
    cbn [droid with_client _client ble calls trace record_call final];
    [|exists 1%nat; reflexivity].
  destruct (ble s (S (calls s))) as [r1|e1 k1];
    cbn [droid with_client _client ble calls trace record_call final];
    [|exists 2%nat; rewrite <- !app_assoc; reflexivity].
  destruct (ble s (S (S (calls s)))) as [r2|e2 k2];
    cbn [droid with_client _client ble calls trace record_call final];
    [|exists 3%nat; rewrite <- !app_assoc; reflexivity].
  destruct (ble s (S (S (S (calls s))))) as [r3|e3 k3];
    cbn [droid with_client _client ble calls trace record_call final];
    exists 4%nat; rewrite <- !app_assoc; reflexivity.
Qed.

End Lifecycle.

(** C5.  When the BLE client answers, session start makes exactly four
    calls, in this order: [connect], the subscription to the
    notification characteristic, and the initialization command
    [0x22, 0x20, 0x01] written twice; the link is then up.  Whatever the
    client answers, start makes a prefix of these four calls and no
    other: no call is made before the one before it has returned, and no
    other command is written before the two initialization writes. *)
Theorem session_start_handshake {Ctx} (s : Sys Ctx) :
  answers_next s 4 ->
  (exists s',
     __aenter__ s = Ok tt s' /\
     trace s' = trace s ++
       [Connect; StartNotify 10;
        WriteGattChar 13 [0x22; 0x20; 0x01]; WriteGattChar 13 [0x22; 0x20; 0x01]] /\
     link_up s' = true) /\
  (forall t : Sys Ctx,
     exists k,
       trace (final (__aenter__ t)) = trace t ++
         firstn k [Connect; StartNotify 10;
                   WriteGattChar 13 [0x22; 0x20; 0x01];
                   WriteGattChar 13 [0x22; 0x20; 0x01]]).
Proof.
  intros Hans. split.
  - destruct (__aenter___run s Hans) as (s' & Hrun & Htr & Hup & _).
    exists s'. repeat split; assumption.
  - intros t. apply __aenter___prefix.
Qed.

Lemma session_start_handshake_witness :
  exists s',
    __aenter__ (sample_sys unit steady) = Ok tt s' /\
    trace s' =
      [Connect; StartNotify 10;
       WriteGattChar 13 [0x22; 0x20; 0x01]; WriteGattChar 13 [0x22; 0x20; 0x01]] /\
    link_up s' = true.
Proof.
  apply (session_start_handshake (sample_sys unit steady)).
  intros k _. exists None. reflexivity.
Defined.

(** [_execute] has no guard of its own: without a client it raises
    AttributeError and nothing is sent; with one, the command is handed
    to it, and the client's answer is the outcome. *)
Lemma _execute_unguarded {Ctx} (t : Sys Ctx) (command : bytes) :
  (_client (droid t) = None -> _execute command t = Raise AttributeError t) /\
  (_client (droid t) <> None ->
   trace (final (_execute command t)) = trace t ++ [WriteGattChar 13 command]) /\
  (forall r, _client (droid t) <> None -> ble t (calls t) = Ack r ->
   exists t', _execute command t = Ok r t') /\
  (forall e kept, _client (droid t) <> None -> ble t (calls t) = Fault e kept ->
   exists t', _execute command t = Raise e t').
Proof.
  unfold _execute, client_call.
  destruct (_client (droid t)) as [c|].
  - split; [intros X; discriminate X|].
    split; [|split].
    + intros _. destruct (ble t (calls t)); reflexivity.
    + intros r _ ->. eexists. reflexivity.
    + intros e kept _ ->. eexists. reflexivity.
  - split; [reflexivity|]. split; [|split]; intros; contradiction.
Qed.

(** C6, as the code has it.  A session whose second handshake write
    fails does not complete its start: [__aenter__] raises the error of
    that write and the body of the with-statement is not run.  The driver
    keeps no Ready state and [_execute] tests none: a write attempted
    while no client exists raises AttributeError and sends nothing;
    otherwise, also after the failed handshake, the command is handed to
    the BLE client, and the write fails only if the client raises. *)
Theorem failed_handshake_and_unguarded_write {Ctx} (s : Sys Ctx)
    (r0 r1 r2 : option bytes) (e : exn) (kept : bool) :
  ble s (calls s) = Ack r0 ->
  ble s (S (calls s)) = Ack r1 ->
  ble s (S (S (calls s))) = Ack r2 ->
  ble s (S (S (S (calls s)))) = Fault e kept ->
  exists s',
    __aenter__ s = Raise e s' /\
    (forall A (body : M Ctx A), async_with body s = Raise e s') /\
    (forall command r, ble s (4 + calls s)%nat = Ack r ->
       exists s'', _execute command s' = Ok r s'' /\
                   trace s'' = trace s' ++ [WriteGattChar 13 command]) /\
    (forall (t : Sys Ctx) command,
       _client (droid t) = None -> _execute command t = Raise AttributeError t) /\
    (forall (t : Sys Ctx) command,
       _client (droid t) <> None ->
       trace (final (_execute command t)) = trace t ++ [WriteGattChar 13 command] /\
       (forall r, ble t (calls t) = Ack r -> exists t', _execute command t = Ok r t')).
Proof.
  intros H0 H1 H2 H3.
  assert (Hrun : exists s', __aenter__ s = Raise e s' /\
                            ble s' = ble s /\ calls s' = (4 + calls s)%nat /\
                            _client (droid s') <> None).
  { unfold __aenter__, bind, assign_client, _execute, client_call, lift, ret.
    change (bytearray [0x22; 0x20; 0x01]) with (@Val bytes [0x22; 0x20; 0x01]).
    cbn [droid with_client _client ble calls trace record_call]. rewrite H0.
    cbn [droid with_client _client ble calls trace record_call]. rewrite H1.
    cbn [droid with_client _client ble calls trace record_call]. rewrite H2.
    cbn [droid with_client _client ble calls trace record_call]. rewrite H3.
    eexists. split; [reflexivity|].
    cbn [droid with_client _client ble calls trace record_call].
    repeat split. discriminate. }
  destruct Hrun as (s' & Hrun & Hble & Hcalls & Hclient).
  exists s'. split; [exact Hrun|]. split; [|split; [|split]].
  - intros A body. unfold async_with. rewrite Hrun. reflexivity.
  - intros command r Hr.
    destruct (_execute_unguarded s' command) as (_ & Htr & Hack & _).
    destruct (Hack r Hclient) as [s'' Hs''].
    { rewrite Hble, Hcalls. exact Hr. }
    exists s''. split; [exact Hs''|].
    specialize (Htr Hclient). rewrite Hs'' in Htr. exact Htr.
  - intros t command. apply _execute_unguarded.
  - intros t command Ht.
    destruct (_execute_unguarded t command) as (_ & Htr & Hack & _).
    split; [apply Htr; exact Ht|].
    intros r Hr. apply Hack; assumption.
Qed.

Lemma failed_handshake_and_unguarded_write_witness :
  exists s',
    __aenter__ (sample_sys unit (faulty_at 3)) = Raise (External 0) s' /\
    (forall A (body : M unit A),
       async_with body (sample_sys unit (faulty_at 3)) = Raise (External 0) s').
Proof.
  destruct (failed_handshake_and_unguarded_write
              (sample_sys unit (faulty_at 3)) None None None (External 0) true
              eq_refl eq_refl eq_refl eq_refl)
    as (s' & Hrun & Hwith & _).
  exists s'. split; [exact Hrun | exact Hwith].
Defined.

(** C6, as stated, fails: after a start whose second handshake write
    failed, a command write is not refused; the bytes go to the device
    and the write returns. *)
Lemma write_after_failed_handshake_is_sent :
  exists s1 s2,
    __aenter__ (sample_sys unit (faulty_at 3)) = Raise (External 0) s1 /\
    _execute [0x29; 0x42; 0x05; 0x46; 0x00; 0x60; 0x01; 0x2C; 0x00; 0x00] s1
    = Ok None s2 /\
    trace s2 = trace s1 ++
      [WriteGattChar 13 [0x29; 0x42; 0x05; 0x46; 0x00; 0x60; 0x01; 0x2C; 0x00; 0x00]].
Proof. eexists. eexists. split; [|split]; reflexivity. Qed.

(** [__aexit__] on a live link: one [disconnect], whatever it answers. *)
Lemma __aexit___live {Ctx} (s : Sys Ctx) :
  link_up s = true ->
  trace (final (__aexit__ s)) = trace s ++ [Disconnect].
Proof.
  unfold link_up, __aexit__, bind, client_call, ret.
  destruct (_client (droid s)) as [c|]; [|intros X; discriminate X].
  intros ->. destruct (ble s (calls s)); reflexivity.
Qed.

(** [__aexit__] on a link that is down does nothing. *)
Lemma __aexit___down {Ctx} (s : Sys Ctx) :
  link_up s = false ->
  final (__aexit__ s) = s /\
  (_client (droid s) <> None -> __aexit__ s = Ok tt s).
Proof.
  unfold link_up, __aexit__.
  destruct (_client (droid s)) as [c|].
  - intros ->. split; [reflexivity | reflexivity].
  - intros _. split; [reflexivity | intros X; contradiction].
Qed.

(** After a teardown that returned, another one does nothing. *)
Lemma __aexit___idempotent {Ctx} (s s' : Sys Ctx) :
  __aexit__ s = Ok tt s' -> __aexit__ s' = Ok tt s'.
Proof.
  unfold __aexit__ at 1. unfold bind, client_call, ret.
  destruct (_client (droid s)) as [c|] eqn:Hc; [|intros X; discriminate X].
  destruct (is_connected c) eqn:Hup.
  - destruct (ble s (calls s)); [|intros X; discriminate X].
    intros [= <-]. reflexivity.
  - intros [= <-]. unfold __aexit__. rewrite Hc, Hup. reflexivity.
Qed.

Lemma disconnect_attempts_app (t u : list event) :
  disconnect_attempts (t ++ u) = (disconnect_attempts t + disconnect_attempts u)%nat.
Proof. unfold disconnect_attempts. now rewrite filter_app, length_app. Qed.

(** C7, as the code has it.  Once session start has returned, every way
    out of the body of the with-statement, by return or by error, runs
    [__aexit__] once on the state the body ended in: if the link is live
    there, [disconnect] is called exactly once; if it is down, teardown
    changes nothing; and a teardown that returned leaves a state in
    which a further teardown changes nothing. *)
Theorem teardown_disconnects_once {Ctx} {A} (body : M Ctx A) (s s1 : Sys Ctx) :
  __aenter__ s = Ok tt s1 ->
  let s2 := final (body s1) in
  final (async_with body s) = final (__aexit__ s2) /\
  (link_up s2 = true ->
   trace (final (async_with body s)) = trace s2 ++ [Disconnect] /\
   disconnect_attempts (trace (final (async_with body s)))
   = S (disconnect_attempts (trace s2))) /\
  (link_up s2 = false -> final (async_with body s) = s2) /\
  (forall e s2', body s1 = Raise e s2' ->
   exists e' s3, async_with body s = Raise e' s3) /\
  (forall s3, __aexit__ s2 = Ok tt s3 -> __aexit__ s3 = Ok tt s3).
Proof.
  intros Henter s2.
  assert (Hfinal : final (async_with body s) = final (__aexit__ s2)).
  { unfold async_with. rewrite Henter. subst s2.
    destruct (body s1) as [a t|e t]; cbn [final];
      destruct (__aexit__ t); reflexivity. }
  split; [exact Hfinal|]. split; [|split; [|split]].
  - intros Hup. rewrite Hfinal, (__aexit___live s2 Hup). split; [reflexivity|].
    rewrite disconnect_attempts_app. cbn. lia.
  - intros Hdown. rewrite Hfinal. apply (__aexit___down s2 Hdown).
  - intros e s2' Hbody. unfold async_with. rewrite Henter, Hbody.
    destruct (__aexit__ s2'); eexists; eexists; reflexivity.
  - intros s3. apply __aexit___idempotent.
Qed.

Lemma teardown_disconnects_once_witness :
  final (async_with (R2_Unit.move_forward 1000 (Some 0x100) None)
           (sample_sys unit steady))
  = final (__aexit__
             (final (R2_Unit.move_forward 1000 (Some 0x100) None ready_sys))).
Proof.
  apply (teardown_disconnects_once (R2_Unit.move_forward 1000 (Some 0x100) None)
           (sample_sys unit steady) ready_sys).
  reflexivity.
Defined.

(** C7, as stated, fails for an error during session start: the second
    handshake write raises while the link is live, the error leaves the
    with-statement, and [disconnect] is never called. *)
Lemma startup_failure_skips_disconnect :
  exists s',
    async_with (ret tt) (sample_sys unit (faulty_at 3)) = Raise (External 0) s' /\
    link_up s' = true /\
    disconnect_attempts (trace s') = 0%nat.
Proof. eexists. split; [|split]; reflexivity. Qed.

(** ** Notifications *)

Lemma dispatch_app {Ctx} (before after : list (Listener Ctx)) (data : bytes) (c : Ctx) :
  dispatch (before ++ after) data c
  = match dispatch before data c with
    | Returned c1 => dispatch after data c1
    | Thrown e c1 => Thrown e c1
    end.
Proof.
  revert c. induction before as [|l before IH]; intros c; cbn [app dispatch].
  - reflexivity.
  - destruct (l data c) as [c'|e c']; [apply IH | reflexivity].
Qed.

(** C8.  Listeners are kept in registration order; a notification buffer
    is handed to each of them in that order, each after all the earlier
    ones have returned; and an exception of a listener is not caught: it
    leaves the dispatch, and the listeners after it are not called. *)
Theorem notifications_in_registration_order {Ctx} :
  (forall (s : Sys Ctx) (a b : Listener Ctx),
     _notification_listeners
       (droid (final (listen_for_notifications b
                        (final (listen_for_notifications a s)))))
     = _notification_listeners (droid s) ++ [a; b]) /\
  (forall (self : Astromech Ctx) sender data c before l after c1,
     _notification_listeners self = before ++ l :: after ->
     dispatch before data c = Returned c1 ->
     _notification_callback self sender data c
     = match l data c1 with
       | Returned c2 => dispatch after data c2
       | Thrown e c2 => Thrown e c2
       end) /\
  (forall (self : Astromech Ctx) sender data c a b,
     _notification_listeners self = [a; b] ->
     _notification_callback self sender data c
     = match a data c with
       | Returned c1 => b data c1
       | Thrown e c1 => Thrown e c1
       end).
Proof.
  split; [|split].
  - intros s a b. cbn. rewrite <- app_assoc. reflexivity.
  - intros self sender data c before l after c1 Hls Hbefore.
    unfold _notification_callback. rewrite Hls, dispatch_app, Hbefore.
    reflexivity.
  - intros self sender data c a b Hls.
    unfold _notification_callback. rewrite Hls. cbn [dispatch].
    destruct (a data c) as [c1|e c1]; [|reflexivity].
    destruct (b data c1); reflexivity.
Qed.

Lemma notifications_in_registration_order_witness :
  let registered (a b : Listener (list (nat * bytes))) :=
    droid (final (listen_for_notifications b
                    (final (listen_for_notifications a
                              (sample_sys (list (nat * bytes)) steady))))) in
  _notification_callback (registered (noting 1) (noting 2)) 10 [0x07; 0x08] []
  = Returned [(1%nat, [0x07; 0x08]); (2%nat, [0x07; 0x08])] /\
  _notification_callback (registered (failing 1) (noting 2)) 10 [0x07; 0x08] []
  = Thrown (External 1) [(1%nat, [0x07; 0x08])].
Proof.
  intros registered.
  destruct (@notifications_in_registration_order (list (nat * bytes)))
    as (_ & _ & Hpair).
  split.
  - rewrite (Hpair (registered (noting 1) (noting 2)) 10 [0x07; 0x08] []
               (noting 1) (noting 2) eq_refl).
    reflexivity.
  - rewrite (Hpair (registered (failing 1) (noting 2)) 10 [0x07; 0x08] []
               (failing 1) (noting 2) eq_refl).
    reflexivity.
Defined.

(** * Further properties of the driver *)

(** ** The codec: errors and decoding *)

Lemma is_byte_false (b : Z) : is_byte b = false <-> ~ 0 <= b < 256.
Proof.
  rewrite <- is_byte_range. destruct (is_byte b); split; intros H;
    congruence || (exfalso; apply H; reflexivity) || reflexivity.
Qed.

(** 16 bits, the test of [to_bytes(2, 'big')]. *)
Lemma _int_to_bytes_rejects (i : Z) :
  ~ 0 <= i < 65536 -> _int_to_bytes i = Exc OverflowError.
Proof.
  intros Hi. unfold _int_to_bytes, to_bytes_2_big.
  destruct ((0 <=? i) && (i <? 65536)) eqn:E; [|reflexivity].
  apply andb_true_iff in E. rewrite Z.leb_le, Z.ltb_lt in E. contradiction.
Qed.

(** X1.  [_command] raises ValueError exactly when the command id is not
    a byte or the payload is longer than 191 bytes; it raises nothing
    else, and otherwise returns the four header bytes followed by the
    payload. *)
Theorem command_errors (command_id : Z) (command_data : bytes) :
  _command command_id command_data
  = if is_byte command_id && (len command_data <=? 191)
    then Val (0x1f + 4 + len command_data :: 0x42 :: command_id
              :: 0x40 + len command_data :: command_data)
    else Exc ValueError.
Proof.
  destruct (is_byte command_id) eqn:Hid; cbn [andb].
  - apply is_byte_range in Hid.
    destruct (len command_data <=? 191) eqn:Hlen.
    + apply Z.leb_le in Hlen. now apply _command_builds.
    + apply Z.leb_gt in Hlen. apply _command_rejects. lia.
  - apply is_byte_false in Hid. apply _command_rejects. tauto.
Qed.

(** A frame that was built gives back what it was built from. *)
Lemma _command_inv (command_id : Z) (command_data frame : bytes) :
  _command command_id command_data = Val frame ->
  0 <= command_id < 256 /\ len command_data <= 191 /\
  frame = 0x1f + 4 + len command_data :: 0x42 :: command_id
          :: 0x40 + len command_data :: command_data.
Proof.
  intros H.
  destruct (Z_le_gt_dec (len command_data) 191) as [Hl|Hl];
    [destruct (Z_le_gt_dec 0 command_id) as [H0|H0];
     [destruct (Z_lt_ge_dec command_id 256) as [H1|H1]|]|].
  - rewrite _command_builds in H by lia. injection H as <-. repeat split; lia.
  - rewrite _command_rejects in H by lia. discriminate H.
  - rewrite _command_rejects in H by lia. discriminate H.
  - rewrite _command_rejects in H by lia. discriminate H.
Qed.

(** X2.  Framing is decodable and keeps bytes bytes: two calls of
    [_command] that build the same frame were given the same command id
    and the same payload; a frame is four bytes longer than its payload,
    at most 195 bytes long, and consists of bytes when the payload
    does. *)
Theorem command_frame_decodes (id1 id2 : Z) (data1 data2 frame : bytes) :
  _command id1 data1 = Val frame ->
  _command id2 data2 = Val frame ->
  id1 = id2 /\ data1 = data2 /\
  len frame = 4 + len data1 /\ len frame <= 195 /\
  (Forall (fun b => 0 <= b < 256) data1 -> Forall (fun b => 0 <= b < 256) frame).
Proof.
  intros H1 H2.
  destruct (_command_inv _ _ _ H1) as (Hid1 & Hlen1 & E1).
  destruct (_command_inv _ _ _ H2) as (Hid2 & Hlen2 & E2).
  pose proof (len_nonneg data1) as Hnn.
  assert (E : id1 = id2 /\ data1 = data2).
  { rewrite E1 in E2. injection E2 as _ Hid _ Hd. split; assumption. }
  destruct E as [Eid Ed].
  assert (Hlf : len frame = 4 + len data1).
  { rewrite E1. unfold len. cbn [List.length]. lia. }
  repeat split; try assumption; try lia.
  intros Hbytes. rewrite E1. repeat constructor; try lia. exact Hbytes.
Qed.

Lemma command_frame_decodes_witness :
  0x0f = 0x0f /\ [0x44; 0x00; 0x18] = [0x44; 0x00; 0x18] /\
  len [0x26; 0x42; 0x0f; 0x43; 0x44; 0x00; 0x18] = 4 + len [0x44; 0x00; 0x18] /\
  len [0x26; 0x42; 0x0f; 0x43; 0x44; 0x00; 0x18] <= 195 /\
  (Forall (fun b => 0 <= b < 256) [0x44; 0x00; 0x18] ->
   Forall (fun b => 0 <= b < 256) [0x26; 0x42; 0x0f; 0x43; 0x44; 0x00; 0x18]).
Proof.
  apply (command_frame_decodes 0x0f 0x0f [0x44; 0x00; 0x18] [0x44; 0x00; 0x18]);
    reflexivity.
Defined.

Section MotorErrors.
Context {Ctx : Type}.
Variable self : Astromech Ctx.
Variables (direction : Direction.t) (motor : Motor.t).
Variables (speed ramp_time : option Z) (delay_after : Z).

Let speed_value : Z :=
  match speed with
  | Some v => v
  | None => if Motor.is_head motor then _head_speed self else _wheel_speed self
  end.

Let ramp_value : Z :=
  match ramp_time with
  | Some v => v
  | None => if Motor.is_head motor then _head_ramp_time self
            else _wheel_ramp_time self
  end.

(** The speed is stored first: a speed that is not a byte is a
    ValueError, whatever the ramp and the delay. *)
Lemma _motor_command_bad_speed :
  ~ 0 <= speed_value < 256 ->
  _motor_command self direction motor speed ramp_time delay_after = Exc ValueError.
Proof.
  intros Hs. unfold _motor_command. fold speed_value.
  rewrite bytearray_spec. cbn [forallb].
  rewrite (proj2 (is_byte_false speed_value) Hs).
  rewrite andb_false_r. reflexivity.
Qed.

Lemma _motor_command_bad_ramp :
  0 <= speed_value < 256 -> ~ 0 <= ramp_value < 65536 ->
  _motor_command self direction motor speed ramp_time delay_after = Exc OverflowError.
Proof.
  intros Hs Hr. unfold _motor_command. fold speed_value. fold ramp_value.
  rewrite bytearray_pair by (apply direction_motor_byte || assumption).
  cbn [rbind]. rewrite (_int_to_bytes_rejects ramp_value Hr). reflexivity.
Qed.

Lemma _motor_command_bad_delay :
  0 <= speed_value < 256 -> 0 <= ramp_value < 65536 ->
  ~ 0 <= delay_after < 65536 ->
  _motor_command self direction motor speed ramp_time delay_after = Exc OverflowError.
Proof.
  intros Hs Hr Hd. unfold _motor_command. fold speed_value. fold ramp_value.
  rewrite bytearray_pair by (apply direction_motor_byte || assumption).
  cbn [rbind]. rewrite (_int_to_bytes_big_endian ramp_value Hr).
  cbn [rbind]. rewrite (_int_to_bytes_rejects delay_after Hd). reflexivity.
Qed.

(** A motor command that was built had fields that fit. *)
Lemma _motor_command_inv (frame : bytes) :
  _motor_command self direction motor speed ramp_time delay_after = Val frame ->
  0 <= speed_value < 256 /\ 0 <= ramp_value < 65536 /\ 0 <= delay_after < 65536 /\
  frame = [0x29; 0x42; 0x05; 0x46;
           Z.lor (Direction.value direction) (Motor.value motor); speed_value;
           ramp_value / 256; ramp_value mod 256;
           delay_after / 256; delay_after mod 256].
Proof.
  intros H.
  assert (Hs : 0 <= speed_value < 256).
  { destruct (Z_le_gt_dec 0 speed_value); [destruct (Z_lt_ge_dec speed_value 256)|];
      try lia; rewrite _motor_command_bad_speed in H by lia; discriminate H. }
  assert (Hr : 0 <= ramp_value < 65536).
  { destruct (Z_le_gt_dec 0 ramp_value); [destruct (Z_lt_ge_dec ramp_value 65536)|];
      try lia; rewrite _motor_command_bad_ramp in H by lia; discriminate H. }
  assert (Hd : 0 <= delay_after < 65536).
  { destruct (Z_le_gt_dec 0 delay_after); [destruct (Z_lt_ge_dec delay_after 65536)|];
      try lia; rewrite _motor_command_bad_delay in H by lia; discriminate H. }
  repeat split; try lia.
  rewrite (_motor_command_frame self direction motor speed ramp_time delay_after
             Hs Hr Hd) in H.
  injection H as <-. reflexivity.
Qed.

End MotorErrors.

Lemma u16_range (v : Z) : (0 <=? v) && (v <? 65536) = true <-> 0 <= v < 65536.
Proof. rewrite andb_true_iff, Z.leb_le, Z.ltb_lt. tauto. Qed.

(** X3.  The errors of [_motor_command], in the order the code meets
    them: a resolved speed that is not a byte is a ValueError, whatever
    the other fields; otherwise a resolved ramp outside 16 bits is an
    OverflowError; otherwise a delay outside 16 bits is an OverflowError;
    otherwise the ten-byte frame is returned. *)
Theorem motor_command_errors {Ctx} (self : Astromech Ctx)
    (direction : Direction.t) (motor : Motor.t)
    (speed ramp_time : option Z) (delay_after : Z) :
  let speed_value :=
    match speed with
    | Some v => v
    | None => if Motor.is_head motor then _head_speed self else _wheel_speed self
    end in
  let ramp_value :=
    match ramp_time with
    | Some v => v
    | None => if Motor.is_head motor then _head_ramp_time self
              else _wheel_ramp_time self
    end in
  _motor_command self direction motor speed ramp_time delay_after
  = if negb (is_byte speed_value) then Exc ValueError
    else if negb ((0 <=? ramp_value) && (ramp_value <? 65536)) then Exc OverflowError
    else if negb ((0 <=? delay_after) && (delay_after <? 65536)) then Exc OverflowError
    else Val [0x29; 0x42; 0x05; 0x46;
              Z.lor (Direction.value direction) (Motor.value motor); speed_value;
              ramp_value / 256; ramp_value mod 256;
              delay_after / 256; delay_after mod 256].
Proof.
  intros speed_value ramp_value.
  destruct (is_byte speed_value) eqn:Hs; cbn [negb].
  - apply is_byte_range in Hs.
    destruct ((0 <=? ramp_value) && (ramp_value <? 65536)) eqn:Hr; cbn [negb].
    + apply u16_range in Hr.
      destruct ((0 <=? delay_after) && (delay_after <? 65536)) eqn:Hd; cbn [negb].
      * apply u16_range in Hd. now apply _motor_command_frame.
      * apply _motor_command_bad_delay; try assumption.
        intros Hd'. apply not_true_iff_false in Hd. apply Hd.
        apply u16_range. exact Hd'.
    + apply _motor_command_bad_ramp; try assumption.
      intros Hr'. apply not_true_iff_false in Hr. apply Hr.
      apply u16_range. exact Hr'.
  - apply _motor_command_bad_speed. now apply is_byte_false.
Qed.

Lemma direction_motor_byte_decodes (d1 d2 : Direction.t) (m1 m2 : Motor.t) :
  Z.lor (Direction.value d1) (Motor.value m1)
  = Z.lor (Direction.value d2) (Motor.value m2) ->
  d1 = d2 /\ m1 = m2.
Proof. destruct d1, d2, m1, m2; cbn; intros H; (split; reflexivity) || discriminate H. Qed.

Lemma big_endian_decodes (a b : Z) :
  a / 256 = b / 256 -> a mod 256 = b mod 256 -> a = b.
Proof.
  intros Hq Hr.
  rewrite (Z.div_mod a 256), (Z.div_mod b 256) by lia. now rewrite Hq, Hr.
Qed.

(** X4.  A motor frame can be decoded: two motor commands that build the
    same frame have the same direction, the same motor, and the same
    resolved speed, ramp and delay, on whatever chassis they were
    built. *)
Theorem motor_command_decodes {Ctx} (self1 self2 : Astromech Ctx)
    (d1 d2 : Direction.t) (m1 m2 : Motor.t)
    (speed1 speed2 ramp1 ramp2 : option Z) (delay1 delay2 : Z) (frame : bytes) :
  _motor_command self1 d1 m1 speed1 ramp1 delay1 = Val frame ->
  _motor_command self2 d2 m2 speed2 ramp2 delay2 = Val frame ->
  d1 = d2 /\ m1 = m2 /\
  match speed1 with
  | Some v => v
  | None => if Motor.is_head m1 then _head_speed self1 else _wheel_speed self1
  end
  = match speed2 with
    | Some v => v
    | None => if Motor.is_head m2 then _head_speed self2 else _wheel_speed self2
    end /\
  match ramp1 with
  | Some v => v
  | None => if Motor.is_head m1 then _head_ramp_time self1 else _wheel_ramp_time self1
  end
  = match ramp2 with
    | Some v => v
    | None => if Motor.is_head m2 then _head_ramp_time self2 else _wheel_ramp_time self2
    end /\
  delay1 = delay2.
Proof.
  intros H1 H2.
  destruct (_motor_command_inv _ _ _ _ _ _ _ H1) as (_ & _ & _ & E1).
  destruct (_motor_command_inv _ _ _ _ _ _ _ H2) as (_ & _ & _ & E2).
  rewrite E1 in E2. injection E2 as Hdm Hs Hrq Hrr Hdq Hdr.
  destruct (direction_motor_byte_decodes _ _ _ _ Hdm) as [Hd Hm].
  repeat split; try assumption.
  - now apply big_endian_decodes.
  - now apply big_endian_decodes.
Qed.

Lemma motor_command_decodes_witness :
  Direction.BACKWARD = Direction.RIGHT /\ Motor.HEAD = Motor.HEAD /\
  0x40 = 0x40 /\ 200 = 200 /\ 0 = 0.
Proof.
  apply (motor_command_decodes (sample_droid unit) (sample_droid unit)
           Direction.BACKWARD Direction.RIGHT Motor.HEAD Motor.HEAD
           None (Some 0x40) None (Some 200) 0 0
           [0x29; 0x42; 0x05; 0x46; 0x82; 0x40; 0x00; 0xC8; 0x00; 0x00]);
    reflexivity.
Defined.

(** X5.  The frames of [_audio_command]: without a parameter the seven
    bytes 26 42 0F 43 44 00 cmd, with one the eight bytes
    27 42 0F 44 44 00 cmd param; a [cmd] or a parameter that is not a
    byte is a ValueError, and there is no other error. *)
Theorem audio_command_frames (cmd : Z) (param : option Z) :
  _audio_command cmd param
  = match param with
    | None =>
        if is_byte cmd
        then Val [0x26; 0x42; 0x0f; 0x43; 0x44; 0x00; cmd]
        else Exc ValueError
    | Some p =>
        if is_byte cmd && is_byte p
        then Val [0x27; 0x42; 0x0f; 0x44; 0x44; 0x00; cmd; p]
        else Exc ValueError
    end.
Proof.
  unfold _audio_command. rewrite bytearray_spec. cbn [forallb].
  change (is_byte 68) with true. change (is_byte 0) with true.
  cbn [andb]. rewrite andb_true_r.
  destruct (is_byte cmd); cbn [rbind andb].
  - destruct param as [p|].
    + unfold append. destruct (is_byte p); cbn [rbind app]; [|reflexivity].
      rewrite _command_builds by (unfold len; cbn; lia). reflexivity.
    + cbn [rbind]. rewrite _command_builds by (unfold len; cbn; lia). reflexivity.
  - destruct param; reflexivity.
Qed.

(** ** Sound and head commands on the wire *)

Lemma _audio_command_param (cmd p : Z) :
  0 <= cmd < 256 -> 0 <= p < 256 ->
  _audio_command cmd (Some p) = Val [0x27; 0x42; 0x0f; 0x44; 0x44; 0x00; cmd; p].
Proof.
  intros Hc Hp. unfold _audio_command. rewrite bytearray_spec. cbn [forallb].
  rewrite (proj2 (is_byte_range cmd) Hc).
  change (is_byte 68) with true. change (is_byte 0) with true.
  cbn [rbind andb]. rewrite append_byte by assumption. cbn [rbind app].
  rewrite _command_builds by (unfold len; cbn; lia). reflexivity.
Qed.

Lemma _audio_command_bad_param (cmd p : Z) :
  0 <= cmd < 256 -> ~ 0 <= p < 256 ->
  _audio_command cmd (Some p) = Exc ValueError.
Proof.
  intros Hc Hp. unfold _audio_command. rewrite bytearray_spec. cbn [forallb].
  rewrite (proj2 (is_byte_range cmd) Hc).
  change (is_byte 68) with true. change (is_byte 0) with true.
  cbn [rbind andb]. rewrite append_rejects by assumption. reflexivity.
Qed.

Section Sending.
Context {Ctx : Type}.
Implicit Types (s : Sys Ctx) (c : BleakClient).

(** A command that was built, written to a client that answers. *)
Lemma send_ack (built : result bytes) (frame : bytes) s c r :
  built = Val frame ->
  _client (droid s) = Some c -> ble s (calls s) = Ack r ->
  bind (lift built) _execute s
  = Ok r (record_call s c (WriteGattChar 13 frame) (is_connected c)).
Proof.
  intros -> Hc Hb. unfold bind, lift, _execute. now apply client_call_ack.
Qed.

(** A command that cannot be built is not written. *)
Lemma send_unbuilt (built : result bytes) (e : exn) s :
  built = Exc e -> bind (lift built) _execute s = Raise e s.
Proof. intros ->. reflexivity. Qed.

Lemma center_head_ack (speed : option Z) (stop_at_center : bool) s c r :
  let speed_value :=
    match speed with Some v => v | None => _head_speed (droid s) end in
  0 <= speed_value < 256 ->
  _client (droid s) = Some c -> ble s (calls s) = Ack r ->
  R2_Unit.center_head speed stop_at_center s
  = Ok r (record_call s c
            (WriteGattChar 13 [0x27; 0x42; 0x0f; 0x44; 0x44; 0x01; speed_value;
                               if stop_at_center then 0x00 else 0x01])
            (is_connected c)).
Proof.
  intros speed_value Hs Hc Hb. unfold R2_Unit.center_head. fold speed_value.
  apply send_ack; [|assumption|assumption].
  rewrite bytearray_spec. cbn [forallb].
  rewrite (proj2 (is_byte_range speed_value) Hs).
  change (is_byte 68) with true. change (is_byte 1) with true.
  replace (is_byte (if stop_at_center then 0 else 1)) with true
    by (now destruct stop_at_center).
  cbn [rbind andb].
  rewrite _command_builds by (unfold len; cbn; lia). reflexivity.
Qed.

End Sending.

(** [float] is exact on the integers of at most 53 bits. *)
Lemma float_of_int_exact (i : Z) :
  - 2 ^ 53 < i < 2 ^ 53 -> PyFloat.float_of_int i = Val i.
Proof.
  intros Hi. unfold PyFloat.float_of_int.
  assert (Ha : Z.abs i < 2 ^ 53) by lia.
  assert (Hlog : (Z.log2 (Z.abs i) <? 53) = true).
  { apply Z.ltb_lt. destruct (Z.eq_dec (Z.abs i) 0) as [E|E].
    - rewrite E. cbn. lia.
    - apply Z.log2_lt_pow2; lia. }
  rewrite Hlog.
  assert (Hbig : (Z.abs i <? 2 ^ 1024) = true).
  { apply Z.ltb_lt. apply Z.lt_le_trans with (2 ^ 53); [exact Ha|].
    apply Z.pow_le_mono_r; lia. }
  rewrite Hbig. now rewrite Z.mul_comm, Z.abs_sgn.
Qed.

(** X6.  [play] on a session whose client answers, for a sound whose
    group and index are bytes: the group is selected (opcode 0x1F), then
    the sound is played (opcode 0x18), each as an eight-byte audio
    frame.  Then, only if [wait] is set, [float(sound.ms)] is computed
    and the coroutine sleeps for that many thousandths: the sound's
    duration itself when it is below 2^53.  If [wait] is set and
    [float(sound.ms)] overflows, [play] raises OverflowError after both
    frames have been written, and does not sleep. *)
Theorem play_sequence {Ctx} (s : Sys Ctx) (c : BleakClient) (snd : Sound) (wait : bool) :
  let frames :=
    [WriteGattChar 13 [0x27; 0x42; 0x0f; 0x44; 0x44; 0x00; 0x1f; group snd];
     WriteGattChar 13 [0x27; 0x42; 0x0f; 0x44; 0x44; 0x00; 0x18; sound snd]] in
  _client (droid s) = Some c ->
  answers_next s 2 ->
  0 <= group snd < 256 ->
  0 <= sound snd < 256 ->
  (forall x, (wait = true -> PyFloat.float_of_int (ms snd) = Val x) ->
     exists s',
       play snd wait s = Ok tt s' /\
       trace s' = trace s ++ frames ++ (if wait then [Sleep x] else [])) /\
  (wait = true -> PyFloat.float_of_int (ms snd) = Exc OverflowError ->
     exists s',
       play snd wait s = Raise OverflowError s' /\
       trace s' = trace s ++ frames) /\
  (- 2 ^ 53 < ms snd < 2 ^ 53 -> PyFloat.float_of_int (ms snd) = Val (ms snd)).
Proof.
  intros frames Hc Hans Hg Hs.
  destruct (Hans 0%nat ltac:(lia)) as [r0 H0].
  destruct (Hans 1%nat ltac:(lia)) as [r1 H1].
  cbn [Nat.add] in H0, H1.
  set (s1 := record_call s c
               (WriteGattChar 13 [0x27; 0x42; 0x0f; 0x44; 0x44; 0x00; 0x1f; group snd])
               (is_connected c)).
  set (c1 := {| address := address c; is_connected := is_connected c |}).
  set (s2 := record_call s1 c1
               (WriteGattChar 13 [0x27; 0x42; 0x0f; 0x44; 0x44; 0x00; 0x18; sound snd])
               (is_connected c1)).
  assert (E1 : set_audio_group (group snd) s = Ok r0 s1).
  { apply send_ack; [apply _audio_command_param; lia | exact Hc | exact H0]. }
  assert (E2 : play_sound_from_current_group (sound snd) s1 = Ok r1 s2).
  { apply send_ack; [apply _audio_command_param; lia | reflexivity | exact H1]. }
  assert (Htr : trace s2 = trace s ++ frames).
  { cbn [s2 s1 trace record_call]. rewrite <- !app_assoc. reflexivity. }
  split; [|split].
  - intros x Hx. unfold play.
    rewrite (bind_ok _ _ s r0 s1 E1), (bind_ok _ _ s1 r1 s2 E2).
    destruct wait.
    + unfold bind, lift. rewrite (Hx eq_refl).
      eexists. split; [reflexivity|].
      cbn [sleep trace]. rewrite Htr, <- app_assoc. reflexivity.
    + exists s2. split; [reflexivity|]. rewrite Htr, app_nil_r. reflexivity.
  - intros -> Hover. unfold play.
    rewrite (bind_ok _ _ s r0 s1 E1), (bind_ok _ _ s1 r1 s2 E2).
    unfold bind, lift. rewrite Hover.
    exists s2. split; [reflexivity | exact Htr].
  - apply float_of_int_exact.
Qed.

Lemma play_sequence_witness :
  exists s',
    play {| group := 3; sound := 7; ms := 1200 |} true ready_sys = Ok tt s' /\
    trace s' = trace ready_sys ++
      [WriteGattChar 13 [0x27; 0x42; 0x0f; 0x44; 0x44; 0x00; 0x1f; 3];
       WriteGattChar 13 [0x27; 0x42; 0x0f; 0x44; 0x44; 0x00; 0x18; 7]]
      ++ [Sleep 1200].
Proof.
  destruct (play_sequence ready_sys
              {| address := "F7:E6:74:95:E5:53"; is_connected := true |}
              {| group := 3; sound := 7; ms := 1200 |} true eq_refl
              (ready_sys_answers 2) ltac:(cbn; lia) ltac:(cbn; lia))
    as (Hok & _ & _).
  apply (Hok 1200). intros _. vm_compute. reflexivity.
Defined.

(** X7.  The errors of [play]: a group that is not a byte is a
    ValueError before anything is sent; a sound index that is not a byte
    is a ValueError after the group has been selected on the device, and
    then neither the sound is played nor the wait made. *)
Theorem play_errors {Ctx} (s : Sys Ctx) (c : BleakClient) (snd : Sound) (wait : bool)
    (r : option bytes) :
  _client (droid s) = Some c ->
  ble s (calls s) = Ack r ->
  (~ 0 <= group snd < 256 -> play snd wait s = Raise ValueError s) /\
  (0 <= group snd < 256 -> ~ 0 <= sound snd < 256 ->
   exists s',
     play snd wait s = Raise ValueError s' /\
     trace s' = trace s ++
       [WriteGattChar 13 [0x27; 0x42; 0x0f; 0x44; 0x44; 0x00; 0x1f; group snd]]).
Proof.
  intros Hc Hb. split.
  - intros Hg.
    assert (E : set_audio_group (group snd) s = Raise ValueError s).
    { apply send_unbuilt. apply _audio_command_bad_param; [lia | exact Hg]. }
    unfold play. unfold bind at 1. rewrite E. reflexivity.
  - intros Hg Hs.
    set (s1 := record_call s c
                 (WriteGattChar 13 [0x27; 0x42; 0x0f; 0x44; 0x44; 0x00; 0x1f; group snd])
                 (is_connected c)).
    assert (E1 : set_audio_group (group snd) s = Ok r s1).
    { apply send_ack; [apply _audio_command_param; lia | exact Hc | exact Hb]. }
    assert (E2 : play_sound_from_current_group (sound snd) s1 = Raise ValueError s1).
    { apply send_unbuilt. apply _audio_command_bad_param; [lia | exact Hs]. }
    unfold play. rewrite (bind_ok _ _ s r s1 E1).
    unfold bind at 1. rewrite E2.
    exists s1. split; reflexivity.
Qed.

Lemma play_errors_witness :
  exists s',
    play {| group := 3; sound := 300; ms := 1200 |} true ready_sys
    = Raise ValueError s' /\
    trace s' = trace ready_sys ++
      [WriteGattChar 13 [0x27; 0x42; 0x0f; 0x44; 0x44; 0x00; 0x1f; 3]].
Proof.
  apply (play_errors ready_sys
           {| address := "F7:E6:74:95:E5:53"; is_connected := true |}
           {| group := 3; sound := 300; ms := 1200 |} true None eq_refl eq_refl);
    cbn; lia.
Defined.

(** X8.  [look_around] on a session whose client answers, with a head
    speed that is a byte and a head ramp of 16 bits: the head is turned
    LEFT, the coroutine sleeps 1.5 s, the head is turned RIGHT, the
    coroutine sleeps 1.5 s, and then, only if [stop_at_center] is set,
    the head-center command is sent, always with its stop flag 0x00.
    Both turns take the head ramp default and delay 0; a speed left out
    is the head default in all three commands. *)
Theorem look_around_sequence {Ctx} (s : Sys Ctx) (c : BleakClient)
    (speed : option Z) (stop_at_center : bool) :
  let v := match speed with Some v => v | None => _head_speed (droid s) end in
  let w := _head_ramp_time (droid s) in
  _client (droid s) = Some c ->
  answers_next s 3 ->
  0 <= v < 256 ->
  0 <= w < 65536 ->
  exists s',
    R2_Unit.look_around speed stop_at_center s = Ok tt s' /\
    trace s' = trace s ++
      [WriteGattChar 13 [0x29; 0x42; 0x05; 0x46; 0x02; v; w / 256; w mod 256; 0x00; 0x00];
       Sleep 1500;
       WriteGattChar 13 [0x29; 0x42; 0x05; 0x46; 0x82; v; w / 256; w mod 256; 0x00; 0x00];
       Sleep 1500]
      ++ (if stop_at_center
          then [WriteGattChar 13 [0x27; 0x42; 0x0f; 0x44; 0x44; 0x01; v; 0x00]]
          else []).
Proof.
  intros v w Hc Hans Hv Hw.
  destruct (Hans 0%nat ltac:(lia)) as [r0 H0].
  destruct (Hans 1%nat ltac:(lia)) as [r1 H1].
  destruct (Hans 2%nat ltac:(lia)) as [r2 H2].
  cbn [Nat.add] in H0, H1, H2.
  assert (Hframe : forall d,
    _motor_command (droid s) d Motor.HEAD speed None 0
    = Val [0x29; 0x42; 0x05; 0x46; Z.lor (Direction.value d) 0x02; v;
           w / 256; w mod 256; 0x00; 0x00]).
  { intros d. rewrite _motor_command_frame; try assumption; [reflexivity | lia]. }
  unfold R2_Unit.look_around, R2_Unit.rotate_head.
  erewrite bind_ok;
    [|apply send_motor_ack; [exact Hc | exact H0 | apply Hframe]].
  erewrite bind_ok; [|reflexivity].
  erewrite bind_ok;
    [|apply send_motor_ack; [reflexivity | exact H1 | apply Hframe]].
  erewrite bind_ok; [|reflexivity].
  destruct stop_at_center.
  - erewrite bind_ok;
      [|apply center_head_ack; [exact Hv | reflexivity | exact H2]].
    eexists. split; [reflexivity|].
    cbn [trace record_call]. rewrite <- !app_assoc. reflexivity.
  - eexists. split; [reflexivity|].
    cbn [trace record_call]. rewrite <- !app_assoc. reflexivity.
Qed.

Lemma look_around_sequence_witness :
  exists s',
    R2_Unit.look_around None true ready_sys = Ok tt s' /\
    trace s' = trace ready_sys ++
      [WriteGattChar 13 [0x29; 0x42; 0x05; 0x46; 0x02; 0x40; 0x00; 0xC8; 0x00; 0x00];
       Sleep 1500;
       WriteGattChar 13 [0x29; 0x42; 0x05; 0x46; 0x82; 0x40; 0x00; 0xC8; 0x00; 0x00];
       Sleep 1500]
      ++ [WriteGattChar 13 [0x27; 0x42; 0x0f; 0x44; 0x44; 0x01; 0x40; 0x00]].
Proof.
  apply (look_around_sequence ready_sys
           {| address := "F7:E6:74:95:E5:53"; is_connected := true |}
           None true eq_refl (ready_sys_answers 3));
    cbn; lia.
Defined.

(** ** Wheel maneuvers that do not complete *)

Section Interrupted.
Context {Ctx : Type}.
Implicit Types (s : Sys Ctx) (c : BleakClient).

Lemma bind_raise {A B} (m : M Ctx A) (k : A -> M Ctx B) s e s' :
  m s = Raise e s' -> bind m k s = Raise e s'.
Proof. unfold bind. now intros ->. Qed.


(** A motor command that does not encode is not written. *)
Lemma send_motor_unbuilt s direction motor speed ramp_time delay_after e :
  _motor_command (droid s) direction motor speed ramp_time delay_after = Exc e ->
  bind (self_motor_command direction motor speed ramp_time delay_after) _execute s
  = Raise e s.
Proof.
  intros Hf. unfold bind, self_motor_command, lift. now rewrite Hf.
Qed.


End Interrupted.





(** ** The ball-drive chassis and the drifts *)

(** X11.  The head turns of [BB_Unit] drive the two wheel motors in
    opposite directions with the head tuning: a speed or ramp left out
    is the head default, not the wheel default.  The two stop commands
    that follow the sleep still carry the wheel ramp default.  (For a
    duration that divides to a double: [duration_ms / 1000] does not
    overflow.) *)
Theorem bb_head_turn_uses_head_tuning {Ctx} (s : Sys Ctx) (c : BleakClient)
    (duration_ms : Z) (speed ramp_time : option Z) :
  let v := match speed with Some v => v | None => _head_speed (droid s) end in
  let h := match ramp_time with Some v => v | None => _head_ramp_time (droid s) end in
  let w := _wheel_ramp_time (droid s) in
  _client (droid s) = Some c ->
  answers_next s 4 ->
  Z.abs duration_ms < 1000 * PyFloat.overflow_threshold ->
  0 <= v < 256 -> 0 <= h < 65536 -> 0 <= w < 65536 ->
  (exists s',
     BB_Unit.turn_head_clockwise duration_ms speed ramp_time s = Ok tt s' /\
     trace s' = trace s ++
       [WriteGattChar 13 [0x29; 0x42; 0x05; 0x46; 0x00; v; h / 256; h mod 256; 0x00; 0x00];
        WriteGattChar 13 [0x29; 0x42; 0x05; 0x46; 0x81; v; h / 256; h mod 256; 0x00; 0x00];
        Sleep duration_ms;
        WriteGattChar 13 [0x29; 0x42; 0x05; 0x46; 0x00; 0x00; w / 256; w mod 256; 0x00; 0x00];
        WriteGattChar 13 [0x29; 0x42; 0x05; 0x46; 0x01; 0x00; w / 256; w mod 256; 0x00; 0x00]]) /\
  (exists s',
     BB_Unit.turn_head_counter_clockwise duration_ms speed ramp_time s = Ok tt s' /\
     trace s' = trace s ++
       [WriteGattChar 13 [0x29; 0x42; 0x05; 0x46; 0x80; v; h / 256; h mod 256; 0x00; 0x00];
        WriteGattChar 13 [0x29; 0x42; 0x05; 0x46; 0x01; v; h / 256; h mod 256; 0x00; 0x00];
        Sleep duration_ms;
        WriteGattChar 13 [0x29; 0x42; 0x05; 0x46; 0x00; 0x00; w / 256; w mod 256; 0x00; 0x00];
        WriteGattChar 13 [0x29; 0x42; 0x05; 0x46; 0x01; 0x00; w / 256; w mod 256; 0x00; 0x00]]).
Proof.
  intros v h w Hc Hans Hfits Hv Hh Hw.
  assert (Hgo : forall d m,
    _motor_command (droid s) d m (Some v) (Some h) 0
    = Val [0x29; 0x42; 0x05; 0x46; Z.lor (Direction.value d) (Motor.value m); v;
           h / 256; h mod 256; 0x00; 0x00]).
  { intros d m. rewrite _motor_command_frame; try assumption; [reflexivity | lia]. }
  pose proof (stop_command_bytes (droid s) Motor.LEFT ltac:(discriminate) Hw) as Hsl.
  pose proof (stop_command_bytes (droid s) Motor.RIGHT ltac:(discriminate) Hw) as Hsr.
  split.
  - exact (_move_wheels_run s c Direction.FORWARD Direction.BACKWARD duration_ms
             (Some v) (Some v) (Some h) _ _ _ _ Hc Hans Hfits
             (Hgo Direction.FORWARD Motor.LEFT) (Hgo Direction.BACKWARD Motor.RIGHT)
             Hsl Hsr).
  - exact (_move_wheels_run s c Direction.BACKWARD Direction.FORWARD duration_ms
             (Some v) (Some v) (Some h) _ _ _ _ Hc Hans Hfits
             (Hgo Direction.BACKWARD Motor.LEFT) (Hgo Direction.FORWARD Motor.RIGHT)
             Hsl Hsr).
Qed.

Lemma bb_head_turn_uses_head_tuning_witness :
  exists s',
    BB_Unit.turn_head_clockwise 800 None None ready_sys = Ok tt s' /\
    trace s' = trace ready_sys ++
      [WriteGattChar 13 [0x29; 0x42; 0x05; 0x46; 0x00; 0x40; 0x00; 0xC8; 0x00; 0x00];
       WriteGattChar 13 [0x29; 0x42; 0x05; 0x46; 0x81; 0x40; 0x00; 0xC8; 0x00; 0x00];
       Sleep 800;
       WriteGattChar 13 [0x29; 0x42; 0x05; 0x46; 0x00; 0x00; 0x01; 0x2C; 0x00; 0x00];
       WriteGattChar 13 [0x29; 0x42; 0x05; 0x46; 0x01; 0x00; 0x01; 0x2C; 0x00; 0x00]].
Proof.
  apply (bb_head_turn_uses_head_tuning ready_sys
           {| address := "F7:E6:74:95:E5:53"; is_connected := true |}
           800 None None eq_refl (ready_sys_answers 4) ltac:(vm_compute; reflexivity));
    cbn; lia.
Defined.

(** X12.  A drift speed of 256 to 511 is no byte, but its half is.
    [drift_clockwise] then raises ValueError with nothing sent, the full
    speed being the left wheel's; [drift_counter_clockwise] first writes
    the left-wheel command with the halved speed and then raises
    ValueError on the right-wheel command, so the left wheel is started
    and not stopped. *)
Theorem drift_speed_out_of_range {Ctx} (s : Sys Ctx) (c : BleakClient)
    (duration_ms speed : Z) (ramp_time : option Z) (r : option bytes) :
  let w := match ramp_time with Some v => v | None => _wheel_ramp_time (droid s) end in
  _client (droid s) = Some c ->
  ble s (calls s) = Ack r ->
  256 <= speed < 512 ->
  0 <= w < 65536 ->
  R2_Unit.drift_clockwise duration_ms (Some speed) ramp_time s = Raise ValueError s /\
  exists s',
    R2_Unit.drift_counter_clockwise duration_ms (Some speed) ramp_time s
    = Raise ValueError s' /\
    trace s' = trace s ++
      [WriteGattChar 13 [0x29; 0x42; 0x05; 0x46; 0x00; Z.quot speed 2;
                         w / 256; w mod 256; 0x00; 0x00]].
Proof.
  intros w Hc Hb Hs Hw.
  assert (Hhalf : PyFloat.halved speed = Val (Z.quot speed 2)).
  { apply halved_exact. change (2 ^ 53) with 9007199254740992. lia. }
  assert (Hq : 0 <= Z.quot speed 2 < 256).
  { Z.to_euclidean_division_equations. lia. }
  assert (Hbad : forall d m other,
    _motor_command (droid s) d m (Some speed) other 0 = Exc ValueError).
  { intros d m other. apply _motor_command_bad_speed. lia. }
  split.
  - unfold R2_Unit.drift_clockwise, bind at 1, lift at 1. rewrite Hhalf.
    unfold _move_wheels.
    erewrite bind_raise; [reflexivity|].
    apply send_motor_unbuilt. apply Hbad.
  - unfold R2_Unit.drift_counter_clockwise, bind at 1, lift at 1. rewrite Hhalf.
    unfold _move_wheels.
    erewrite bind_ok;
      [|apply send_motor_ack;
        [exact Hc | exact Hb
        |apply (_motor_command_frame (droid s) Direction.FORWARD Motor.LEFT
                  (Some (Z.quot speed 2)) ramp_time 0); [exact Hq | exact Hw | lia]]].
    erewrite bind_raise; [|apply send_motor_unbuilt; apply Hbad].
    eexists. split; reflexivity.
Qed.

Lemma drift_speed_out_of_range_witness :
  R2_Unit.drift_clockwise 1000 (Some 300) None ready_sys
  = Raise ValueError ready_sys /\
  exists s',
    R2_Unit.drift_counter_clockwise 1000 (Some 300) None ready_sys
    = Raise ValueError s' /\
    trace s' = trace ready_sys ++
      [WriteGattChar 13 [0x29; 0x42; 0x05; 0x46; 0x00; 150; 0x01; 0x2C; 0x00; 0x00]].
Proof.
  apply (drift_speed_out_of_range ready_sys
           {| address := "F7:E6:74:95:E5:53"; is_connected := true |}
           1000 300 None None eq_refl eq_refl);
    cbn; lia.
Defined.

(** ** The with-statement, the listeners, and a session that was never started *)

(** X13.  How the with-statement ends when the body leaves the link
    live.  If [disconnect] returns, the link is down afterwards and the
    statement ends as the body did: with the body's value, or with the
    body's exception, which [__aexit__] never swallows.  If [disconnect]
    raises, its exception is what leaves the statement: a body that
    returned becomes an error, and an exception of the body is
    replaced. *)
Theorem with_statement_outcomes {Ctx} {A} (body : M Ctx A)
    (s s1 s2 : Sys Ctx) (c : BleakClient) :
  __aenter__ s = Ok tt s1 ->
  final (body s1) = s2 ->
  _client (droid s2) = Some c ->
  is_connected c = true ->
  (forall r, ble s2 (calls s2) = Ack r ->
     link_up (record_call s2 c Disconnect false) = false /\
     (forall a, body s1 = Ok a s2 ->
        async_with body s = Ok a (record_call s2 c Disconnect false)) /\
     (forall e, body s1 = Raise e s2 ->
        async_with body s = Raise e (record_call s2 c Disconnect false))) /\
  (forall e' kept, ble s2 (calls s2) = Fault e' kept ->
     async_with body s = Raise e' (record_call s2 c Disconnect kept)).
Proof.
  intros Henter Hfinal Hc Hup.
  assert (Hexit_ack : forall r, ble s2 (calls s2) = Ack r ->
            __aexit__ s2 = Ok tt (record_call s2 c Disconnect false)).
  { intros r Hb. unfold __aexit__. rewrite Hc, Hup.
    unfold bind, client_call, ret. rewrite Hc, Hb. reflexivity. }
  assert (Hexit_fault : forall e' kept, ble s2 (calls s2) = Fault e' kept ->
            __aexit__ s2 = Raise e' (record_call s2 c Disconnect kept)).
  { intros e' kept Hb. unfold __aexit__. rewrite Hc, Hup.
    unfold bind, client_call, ret. rewrite Hc, Hb, Hup. reflexivity. }
  split.
  - intros r Hb. split; [reflexivity|]. split.
    + intros a Hbody. unfold async_with.
      rewrite Henter, Hbody, (Hexit_ack r Hb). reflexivity.
    + intros e Hbody. unfold async_with.
      rewrite Henter, Hbody, (Hexit_ack r Hb). reflexivity.
  - intros e' kept Hb. unfold async_with. rewrite Henter.
    destruct (body s1) as [a t|e t]; cbn [final] in Hfinal; subst t;
      rewrite (Hexit_fault e' kept Hb); reflexivity.
Qed.

Lemma with_statement_outcomes_witness :
  exists s3,
    async_with (R2_Unit.move_forward 1000 (Some 0x100) None)
      (sample_sys unit (faulty_at 4))
    = Raise (External 0) s3.
Proof.
  destruct (with_statement_outcomes (R2_Unit.move_forward 1000 (Some 0x100) None)
              (sample_sys unit (faulty_at 4))
              (final (__aenter__ (sample_sys unit (faulty_at 4))))
              (final (__aenter__ (sample_sys unit (faulty_at 4))))
              {| address := "F7:E6:74:95:E5:53"; is_connected := true |}
              eq_refl eq_refl eq_refl eq_refl)
    as [_ Hfault].
  eexists. apply (Hfault (External 0) true). reflexivity.
Defined.

Lemma dispatch_thrown {Ctx} (listeners : list (Listener Ctx)) (data : bytes) :
  forall (c c' : Ctx) (e : exn),
    dispatch listeners data c = Thrown e c' ->
    exists before l after c1,
      listeners = before ++ l :: after /\
      dispatch before data c = Returned c1 /\
      l data c1 = Thrown e c'.
Proof.
  induction listeners as [|l rest IH]; intros c c' e H; cbn [dispatch] in H.
  - discriminate H.
  - destruct (l data c) as [c0|e0 c0] eqn:Hl.
    + destruct (IH c0 c' e H) as (before & l' & after & c1 & -> & Hb & Hl').
      exists (l :: before), l', after, c1. split; [reflexivity|].
      split; [|exact Hl']. cbn [dispatch]. rewrite Hl. exact Hb.
    + injection H as -> ->.
      exists [], l, rest, c. repeat split. exact Hl.
Qed.

Lemma dispatch_returns {Ctx} (listeners : list (Listener Ctx)) (data : bytes) :
  (forall l, In l listeners -> forall d x, exists x', l d x = Returned x') ->
  forall c : Ctx, exists c', dispatch listeners data c = Returned c'.
Proof.
  induction listeners as [|l rest IH]; intros Hall c; cbn [dispatch].
  - exists c. reflexivity.
  - destruct (Hall l (or_introl eq_refl) data c) as [c0 ->].
    apply IH. intros l' Hin. apply Hall. right. exact Hin.
Qed.

(** X14.  The dispatch adds no failure of its own.  Without listeners a
    notification leaves the caller's context as it was; an exception
    that leaves the dispatch was raised by a registered listener, which
    was called after all the listeners before it had returned; and when
    no registered listener raises, the dispatch returns. *)
Theorem dispatch_raises_only_listener_errors {Ctx} (self : Astromech Ctx)
    (sender : Z) (data : bytes) (c : Ctx) :
  (_notification_listeners self = [] ->
   _notification_callback self sender data c = Returned c) /\
  (forall e c',
     _notification_callback self sender data c = Thrown e c' ->
     exists before l after c1,
       _notification_listeners self = before ++ l :: after /\
       dispatch before data c = Returned c1 /\
       l data c1 = Thrown e c') /\
  ((forall l, In l (_notification_listeners self) ->
      forall d x, exists x', l d x = Returned x') ->
   exists c', _notification_callback self sender data c = Returned c').
Proof.
  unfold _notification_callback. split; [|split].
  - intros ->. reflexivity.
  - intros e c'. apply dispatch_thrown.
  - intros Hall. now apply dispatch_returns.
Qed.

Lemma dispatch_raises_only_listener_errors_witness :
  exists c',
    _notification_callback
      (droid (final (listen_for_notifications (noting 2)
                       (final (listen_for_notifications (noting 1)
                                 (sample_sys (list (nat * bytes)) steady))))))
      10 [0x07] []
    = Returned c'.
Proof.
  apply (dispatch_raises_only_listener_errors
           (droid (final (listen_for_notifications (noting 2)
                            (final (listen_for_notifications (noting 1)
                                      (sample_sys (list (nat * bytes)) steady))))))
           10 [0x07] []).
  intros l [<-|[<-|[]]] d x; eexists; reflexivity.
Defined.

Section NoSession.
Context {Ctx : Type}.
Variable s : Sys Ctx.
Hypothesis no_client : _client (droid s) = None.

Lemma send_no_client (built : result bytes) :
  exists e, bind (lift built) _execute s = Raise e s.
Proof.
  unfold bind, lift. destruct built as [frame|e].
  - exists AttributeError. unfold _execute, client_call. now rewrite no_client.
  - exists e. reflexivity.
Qed.

Lemma send_motor_no_client direction motor speed ramp_time delay_after :
  exists e,
    bind (self_motor_command direction motor speed ramp_time delay_after) _execute s
    = Raise e s.
Proof.
  unfold self_motor_command.
  apply (send_no_client
           (_motor_command (droid s) direction motor speed ramp_time delay_after)).
Qed.

End NoSession.

(** X15.  On a droid whose session was never started nothing reaches the
    BLE library: every wheel maneuver, [play], [rotate_head],
    [center_head], [look_around] and [__aexit__] raise (AttributeError,
    unless the first command does not even encode) and leave the state
    as it was.  [stop] alone sleeps for its delay before it fails, when
    the delay divides to a double; when [delay_ms / 1000] overflows it
    raises OverflowError at once, and the state is as it was. *)
Theorem no_session_no_traffic {Ctx} (s : Sys Ctx) :
  _client (droid s) = None ->
  (forall ld rd duration_ms ls rs ramp_time,
     exists e, _move_wheels ld rd duration_ms ls rs ramp_time s = Raise e s) /\
  (forall snd wait, exists e, play snd wait s = Raise e s) /\
  (forall d speed ramp_time delay_after,
     exists e, R2_Unit.rotate_head d speed ramp_time delay_after s = Raise e s) /\
  (forall speed stop_at_center,
     exists e, R2_Unit.center_head speed stop_at_center s = Raise e s) /\
  (forall speed stop_at_center,
     exists e, R2_Unit.look_around speed stop_at_center s = Raise e s) /\
  __aexit__ s = Raise AttributeError s /\
  (forall delay_ms,
     Z.abs delay_ms < 1000 * PyFloat.overflow_threshold ->
     exists e s', stop delay_ms s = Raise e s' /\
                  trace s' = trace s ++ [Sleep delay_ms]) /\
  (forall delay_ms,
     1000 * PyFloat.overflow_threshold <= Z.abs delay_ms ->
     stop delay_ms s = Raise OverflowError s).
Proof.
  intros Hnone.
  split; [|split; [|split; [|split; [|split; [|split; [|split]]]]]].
  - intros ld rd duration_ms ls rs ramp_time.
    destruct (send_motor_no_client s Hnone ld Motor.LEFT ls ramp_time 0) as [e He].
    exists e. unfold _move_wheels. now apply bind_raise.
  - intros snd wait.
    destruct (send_no_client s Hnone (_audio_command 0x1f (Some (group snd))))
      as [e He].
    exists e. unfold play. apply bind_raise. exact He.
  - intros d speed ramp_time delay_after.
    apply (send_motor_no_client s Hnone).
  - intros speed stop_at_center. unfold R2_Unit.center_head.
    apply (send_no_client s Hnone).
  - intros speed stop_at_center.
    destruct (send_motor_no_client s Hnone Direction.LEFT Motor.HEAD speed None 0)
      as [e He].
    exists e. unfold R2_Unit.look_around. apply bind_raise. exact He.
  - unfold __aexit__. now rewrite Hnone.
  - intros delay_ms Hfits.
    set (s0 := {| droid := droid s; ble := ble s; calls := calls s;
                  trace := trace s ++ [Sleep delay_ms] |}).
    destruct (send_motor_no_client s0 Hnone Direction.FORWARD Motor.LEFT (Some 0) None 0)
      as [e He].
    exists e, s0. split; [|reflexivity].
    unfold stop.
    rewrite (bind_ok _ _ s tt s0) by (apply timed_sleep; exact Hfits).
    now apply bind_raise.
  - intros delay_ms Hover. unfold stop.
    apply bind_raise. apply timed_sleep_overflows. exact Hover.
Qed.

Lemma no_session_no_traffic_witness :
  exists e,
    R2_Unit.move_forward 1000 None None (sample_sys unit steady)
    = Raise e (sample_sys unit steady).
Proof.
  apply (no_session_no_traffic (sample_sys unit steady) eq_refl).
Defined.

(** ** Discovery *)

(** The device [scan] appends for a discovered device, if any. *)
Lemma name_in_spec (d : BLEDevice.t) (names : list string) :
  name_in d names = true <->
  exists n, BLEDevice.name d = Some n /\ In n names.
Proof.
  unfold name_in. destruct (BLEDevice.name d) as [n|].
  - rewrite existsb_exists. split.
    + intros (x & Hin & Heq). apply String.eqb_eq in Heq. subst x.
      exists n. split; [reflexivity | exact Hin].
    + intros (x & [= <-] & Hin). exists n. split; [exact Hin | apply String.eqb_refl].
  - split; [intros H; discriminate H | intros (n & H & _); discriminate H].
Qed.

Lemma scan_loop_addressed (names : list string) (discovered : list BLEDevice.t) :
  (forall d, In d discovered -> name_in d names = true ->
             BLEDevice.details_props_address d <> None) ->
  forall devices,
    scan_loop names discovered devices
    = Some (devices ++
            flat_map (fun d =>
                        match BLEDevice.name d, BLEDevice.details_props_address d with
                        | Some n, Some a =>
                            if existsb (String.eqb n) names
                            then [{| DiscoveredDevice.mac_address := a;
                                     DiscoveredDevice.name := n |}]
                            else []
                        | _, _ => []
                        end) discovered).
Proof.
  induction discovered as [|d rest IH]; intros Hall devices;
    cbn [scan_loop flat_map].
  - now rewrite app_nil_r.
  - assert (Hrest : forall d', In d' rest -> name_in d' names = true ->
                               BLEDevice.details_props_address d' <> None).
    { intros d' Hin. apply Hall. right. exact Hin. }
    pose proof (Hall d (or_introl eq_refl)) as Hd.
    unfold name_in in *.
    destruct (BLEDevice.name d) as [n|].
    + destruct (existsb (String.eqb n) names).
      * destruct (BLEDevice.details_props_address d) as [a|].
        -- rewrite (IH Hrest), <- app_assoc. reflexivity.
        -- exfalso. now apply Hd.
      * rewrite (IH Hrest).
        destruct (BLEDevice.details_props_address d); reflexivity.
    + rewrite (IH Hrest). reflexivity.
Qed.

Lemma scan_loop_unaddressed (names : list string) (discovered : list BLEDevice.t)
    (d : BLEDevice.t) :
  In d discovered -> name_in d names = true ->
  BLEDevice.details_props_address d = None ->
  forall devices, scan_loop names discovered devices = None.
Proof.
  intros Hin Hname Haddr.
  induction discovered as [|d0 rest IH]; intros devices; [contradiction|].
  cbn [scan_loop]. destruct Hin as [->|Hin].
  - rewrite Hname, Haddr. reflexivity.
  - destruct (name_in d0 names) eqn:H0; [|now apply IH].
    destruct (BLEDevice.details_props_address d0); [|reflexivity].
    destruct (BLEDevice.name d0); [now apply IH | reflexivity].
Qed.

(** X16.  [scan] looks for the given names, and for the one name DROID
    when it is given no list or an empty one.  When every discovered
    device of such a name has an address, it returns, in discovery
    order, one entry for each discovered device whose name is among the
    names, with that device's address and name; devices of other names
    and devices without a name are left out. *)
Theorem scan_finds_named (bt_names : option (list string))
    (discovered : list BLEDevice.t) :
  let names :=
    match bt_names with
    | Some (n :: ns) => n :: ns
    | _ => ["DROID"%string]
    end in
  (forall d, In d discovered -> name_in d names = true ->
             BLEDevice.details_props_address d <> None) ->
  exists found,
    scan bt_names discovered = Some found /\
    found = flat_map (fun d =>
                        match BLEDevice.name d, BLEDevice.details_props_address d with
                        | Some n, Some a =>
                            if existsb (String.eqb n) names
                            then [{| DiscoveredDevice.mac_address := a;
                                     DiscoveredDevice.name := n |}]
                            else []
                        | _, _ => []
                        end) discovered /\
    (forall dev,
       In dev found <->
       exists d, In d discovered /\
                 BLEDevice.name d = Some (DiscoveredDevice.name dev) /\
                 BLEDevice.details_props_address d
                 = Some (DiscoveredDevice.mac_address dev) /\
                 In (DiscoveredDevice.name dev) names).
Proof.
  intros names Hall. eexists. split; [|split; [reflexivity|]].
  - unfold scan. fold names. rewrite (scan_loop_addressed names discovered Hall).
    reflexivity.
  - intros dev. rewrite in_flat_map. split.
    + intros (d & Hin & Hdev). exists d. split; [exact Hin|].
      destruct (BLEDevice.name d) as [n|]; [|contradiction].
      destruct (BLEDevice.details_props_address d) as [a|]; [|contradiction].
      destruct (existsb (String.eqb n) names) eqn:Hn; [|contradiction].
      destruct Hdev as [<-|[]]. cbn. repeat split.
      apply existsb_exists in Hn. destruct Hn as (x & Hx & Heq).
      apply String.eqb_eq in Heq. now subst x.
    + intros (d & Hin & Hn & Ha & Hnames). exists d. split; [exact Hin|].
      rewrite Hn, Ha.
      replace (existsb (String.eqb (DiscoveredDevice.name dev)) names) with true.
      * left. destruct dev. reflexivity.
      * symmetry. apply existsb_exists. exists (DiscoveredDevice.name dev).
        split; [exact Hnames | apply String.eqb_refl].
Qed.

Lemma scan_finds_named_witness :
  exists found,
    scan (Some [])
      [{| BLEDevice.name := Some "TV"%string;
          BLEDevice.details_props_address := None |};
       {| BLEDevice.name := None;
          BLEDevice.details_props_address := Some "00:11:22:33:44:55"%string |};
       {| BLEDevice.name := Some "DROID"%string;
          BLEDevice.details_props_address := Some "F7:E6:74:95:E5:53"%string |}]
    = Some found /\
    found = [{| DiscoveredDevice.mac_address := "F7:E6:74:95:E5:53"%string;
                DiscoveredDevice.name := "DROID"%string |}].
Proof.
  destruct (scan_finds_named (Some [])
              [{| BLEDevice.name := Some "TV"%string;
                  BLEDevice.details_props_address := None |};
               {| BLEDevice.name := None;
                  BLEDevice.details_props_address := Some "00:11:22:33:44:55"%string |};
               {| BLEDevice.name := Some "DROID"%string;
                  BLEDevice.details_props_address := Some "F7:E6:74:95:E5:53"%string |}])
    as (found & Hscan & Hfound & _).
  - intros d [<-|[<-|[<-|[]]]] Hname; cbn in Hname; try discriminate Hname.
    cbn. discriminate.
  - exists found. split; [exact Hscan | exact Hfound].
Defined.

(** X17.  One discovered device of a looked-for name whose details hold
    no address makes the whole scan fail: the lookup raises inside the
    loop and the devices found before it are not returned. *)
Theorem scan_fails_without_address (bt_names : option (list string))
    (discovered : list BLEDevice.t) (d : BLEDevice.t) :
  let names :=
    match bt_names with
    | Some (n :: ns) => n :: ns
    | _ => ["DROID"%string]
    end in
  In d discovered ->
  name_in d names = true ->
  BLEDevice.details_props_address d = None ->
  scan bt_names discovered = None.
Proof.
  intros names Hin Hname Haddr. unfold scan. fold names.
  now apply (scan_loop_unaddressed names discovered d).
Qed.

Lemma scan_fails_without_address_witness :
  scan (Some ["R2"%string; "BB"%string])
    [{| BLEDevice.name := Some "R2"%string;
        BLEDevice.details_props_address := Some "F7:E6:74:95:E5:53"%string |};
     {| BLEDevice.name := Some "BB"%string;
        BLEDevice.details_props_address := None |}]
  = None.
Proof.
  apply (scan_fails_without_address (Some ["R2"%string; "BB"%string]) _
           {| BLEDevice.name := Some "BB"%string;
              BLEDevice.details_props_address := None |});
    [right; left; reflexivity | reflexivity | reflexivity].
Defined.

(** ** The byte dump *)

Lemma hex_digit_inj (a b : Z) :
  0 <= a < 16 -> 0 <= b < 16 -> hex_digit a = hex_digit b -> a = b.
Proof.
  intros Ha Hb H.
  pose (value := fun ch : ascii => Z.of_N (N_of_ascii ch)).
  assert (Hcode : forall n, 0 <= n < 16 ->
            value (hex_digit n) = if n <? 10 then 48 + n else 87 + n).
  { intros n Hn. rewrite <- (Z2Nat.id n) by lia.
    assert (Hk : (Z.to_nat n < 16)%nat) by lia.
    generalize dependent (Z.to_nat n). intros k.
    do 16 (destruct k as [|k]; [intros _; reflexivity|]).
    intros Hk. exfalso. lia. }
  pose proof (Hcode a Ha) as Ea. pose proof (Hcode b Hb) as Eb.
  rewrite H in Ea. rewrite Ea in Eb.
  destruct (a <? 10) eqn:Ca; destruct (b <? 10) eqn:Cb;
    rewrite ?Z.ltb_lt, ?Z.ltb_ge in *; lia.
Qed.

Lemma _dump_bytes_more (b x : Z) (rest : bytes) :
  _dump_bytes (b :: x :: rest)
  = String (hex_digit (b / 16))
      (String (hex_digit (b mod 16)) (String " " (_dump_bytes (x :: rest)))).
Proof. reflexivity. Qed.

Lemma _dump_bytes_last (b : Z) :
  _dump_bytes [b]
  = String (hex_digit (b / 16)) (String (hex_digit (b mod 16)) EmptyString).
Proof. reflexivity. Qed.

Lemma byte_of_digits (a b : Z) :
  0 <= a < 256 -> 0 <= b < 256 ->
  hex_digit (a / 16) = hex_digit (b / 16) ->
  hex_digit (a mod 16) = hex_digit (b mod 16) ->
  a = b.
Proof.
  intros Ha Hb Hq Hr.
  apply hex_digit_inj in Hq;
    [|split; [apply Z.div_pos; lia | apply Z.div_lt_upper_bound; lia]
     |split; [apply Z.div_pos; lia | apply Z.div_lt_upper_bound; lia]].
  apply hex_digit_inj in Hr; [|apply Z.mod_pos_bound; lia|apply Z.mod_pos_bound; lia].
  rewrite (Z.div_mod a 16), (Z.div_mod b 16) by lia. now rewrite Hq, Hr.
Qed.

(** X18.  The dump of a byte buffer has two characters a byte and one
    between two bytes, none for the empty buffer, and it is unambiguous:
    two buffers of bytes with the same dump are the same buffer. *)
Theorem dump_bytes_unambiguous (data1 data2 : bytes) :
  Forall (fun b => 0 <= b < 256) data1 ->
  Forall (fun b => 0 <= b < 256) data2 ->
  String.length (_dump_bytes data1) = Nat.pred (3 * List.length data1) /\
  (_dump_bytes data1 = _dump_bytes data2 -> data1 = data2).
Proof.
  intros H1 H2. split.
  - clear H1 H2 data2. induction data1 as [|b rest IH]; [reflexivity|].
    destruct rest as [|x rest'].
    + reflexivity.
    + rewrite _dump_bytes_more. cbn [String.length]. rewrite IH.
      cbn [List.length]. lia.
  - revert data2 H2. induction H1 as [|b1 r1 Hb1 Hr1 IH]; intros data2 H2 E.
    + destruct data2; [reflexivity | discriminate E].
    + destruct H2 as [|b2 r2 Hb2 Hr2]; [discriminate E|].
      destruct r1 as [|x1 r1'], r2 as [|x2 r2'].
      * rewrite !_dump_bytes_last in E. injection E as Eq Er.
        f_equal. now apply byte_of_digits.
      * rewrite _dump_bytes_last, _dump_bytes_more in E. discriminate E.
      * rewrite _dump_bytes_last, _dump_bytes_more in E. discriminate E.
      * rewrite !_dump_bytes_more in E.
        remember (_dump_bytes (x1 :: r1')) as t1 eqn:E1.
        remember (_dump_bytes (x2 :: r2')) as t2 eqn:E2.
        injection E as Eq Er Et. subst t1 t2.
        f_equal; [now apply byte_of_digits | now apply IH].
Qed.

Lemma dump_bytes_unambiguous_witness :
  String.length (_dump_bytes [0x1f; 0x42; 0x05]) = 8%nat /\
  _dump_bytes [0x1f; 0x42; 0x05] = "1f 42 05"%string.
Proof.
  destruct (dump_bytes_unambiguous [0x1f; 0x42; 0x05] [0x1f; 0x42; 0x05])
    as [Hlen _].
  - repeat constructor; lia.
  - repeat constructor; lia.
  - split; [exact Hlen | reflexivity].
Defined.

(** ** A whole session *)

Section WholeSession.
Context {Ctx : Type}.
Implicit Types (s : Sys Ctx) (c : BleakClient).

(** The state [__aenter__] returns in, against a client that answers:
    a connected client, the tuning untouched, four calls made. *)
Lemma __aenter___state s :
  answers_next s 4 ->
  exists s1 c,
    __aenter__ s = Ok tt s1 /\
    _client (droid s1) = Some c /\ is_connected c = true /\
    _wheel_speed (droid s1) = _wheel_speed (droid s) /\
    _wheel_ramp_time (droid s1) = _wheel_ramp_time (droid s) /\
    ble s1 = ble s /\ calls s1 = (4 + calls s)%nat /\
    trace s1 = trace s ++ startup_calls.
Proof.
  intros Hans.
  destruct (Hans 0%nat ltac:(lia)) as [r0 H0].
  destruct (Hans 1%nat ltac:(lia)) as [r1 H1].
  destruct (Hans 2%nat ltac:(lia)) as [r2 H2].
  destruct (Hans 3%nat ltac:(lia)) as [r3 H3].
  cbn [Nat.add] in H0, H1, H2, H3.
  unfold __aenter__, bind, assign_client, _execute, client_call, lift, ret.
  change (bytearray [0x22; 0x20; 0x01]) with (@Val bytes [0x22; 0x20; 0x01]).
  cbn [droid with_client _client ble calls trace record_call]. rewrite H0.
  cbn [droid with_client _client ble calls trace record_call]. rewrite H1.
  cbn [droid with_client _client ble calls trace record_call]. rewrite H2.
  cbn [droid with_client _client ble calls trace record_call]. rewrite H3.
  eexists. eexists. split; [reflexivity|].
  cbn [droid with_client _client ble calls trace record_call is_connected
       _wheel_speed _wheel_ramp_time].
  rewrite <- !app_assoc. repeat split.
Qed.

(** [_move_wheels] against a client that answers: the state it returns
    in, beside its trace. *)
Lemma _move_wheels_run_state s c left_direction right_direction duration_ms
    left_speed right_speed ramp_time go_left go_right stop_left stop_right :
  _client (droid s) = Some c ->
  answers_next s 4 ->
  Z.abs duration_ms < 1000 * PyFloat.overflow_threshold ->
  _motor_command (droid s) left_direction Motor.LEFT left_speed ramp_time 0 = Val go_left ->
  _motor_command (droid s) right_direction Motor.RIGHT right_speed ramp_time 0 = Val go_right ->
  _motor_command (droid s) Direction.FORWARD Motor.LEFT (Some 0) None 0 = Val stop_left ->
  _motor_command (droid s) Direction.FORWARD Motor.RIGHT (Some 0) None 0 = Val stop_right ->
  exists s',
    _move_wheels left_direction right_direction duration_ms
      left_speed right_speed ramp_time s = Ok tt s' /\
    trace s' = trace s ++ [WriteGattChar 13 go_left; WriteGattChar 13 go_right;
                           Sleep duration_ms;
                           WriteGattChar 13 stop_left; WriteGattChar 13 stop_right] /\
    _client (droid s')
    = Some {| address := address c; is_connected := is_connected c |} /\
    ble s' = ble s /\ calls s' = (4 + calls s)%nat.
Proof.
  intros Hc Hans Hfits Hgl Hgr Hsl Hsr.
  destruct (Hans 0%nat ltac:(lia)) as [r0 H0].
  destruct (Hans 1%nat ltac:(lia)) as [r1 H1].
  destruct (Hans 2%nat ltac:(lia)) as [r2 H2].
  destruct (Hans 3%nat ltac:(lia)) as [r3 H3].
  cbn [Nat.add] in H0, H1, H2, H3.
  unfold _move_wheels.
  erewrite bind_ok; [|apply send_motor_ack; [exact Hc | exact H0 | exact Hgl]].
  erewrite bind_ok; [|apply send_motor_ack; [reflexivity | exact H1 | exact Hgr]].
  unfold stop.
  erewrite bind_ok; [|apply timed_sleep; exact Hfits].
  erewrite bind_ok; [|apply send_motor_ack; [reflexivity | exact H2 | exact Hsl]].
  erewrite bind_ok; [|apply send_motor_ack; [reflexivity | exact H3 | exact Hsr]].
  eexists. split; [reflexivity|].
  cbn [ret trace record_call droid with_client _client ble calls address is_connected].
  rewrite <- !app_assoc. repeat split.
Qed.

End WholeSession.

(** X19.  A whole session around one maneuver, against a client that
    answers its nine calls: [async with droid: move_forward(...)] makes
    the four calls of the start, writes the two motion commands with the
    wheel tuning for what the caller left out, sleeps, writes the two
    stop commands, and disconnects once; it returns, and the link is
    down.  (For a duration that divides to a double: [duration_ms /
    1000] does not overflow.) *)
Theorem session_move_forward_trace {Ctx} (s : Sys Ctx)
    (duration_ms : Z) (speed ramp_time : option Z) :
  let v := match speed with Some v => v | None => _wheel_speed (droid s) end in
  let h := match ramp_time with Some v => v | None => _wheel_ramp_time (droid s) end in
  let w := _wheel_ramp_time (droid s) in
  answers_next s 9 ->
  Z.abs duration_ms < 1000 * PyFloat.overflow_threshold ->
  0 <= v < 256 -> 0 <= h < 65536 -> 0 <= w < 65536 ->
  exists s',
    async_with (R2_Unit.move_forward duration_ms speed ramp_time) s = Ok tt s' /\
    trace s' = trace s ++
      [Connect; StartNotify 10;
       WriteGattChar 13 [0x22; 0x20; 0x01]; WriteGattChar 13 [0x22; 0x20; 0x01];
       WriteGattChar 13 [0x29; 0x42; 0x05; 0x46; 0x00; v; h / 256; h mod 256; 0x00; 0x00];
       WriteGattChar 13 [0x29; 0x42; 0x05; 0x46; 0x01; v; h / 256; h mod 256; 0x00; 0x00];
       Sleep duration_ms;
       WriteGattChar 13 [0x29; 0x42; 0x05; 0x46; 0x00; 0x00; w / 256; w mod 256; 0x00; 0x00];
       WriteGattChar 13 [0x29; 0x42; 0x05; 0x46; 0x01; 0x00; w / 256; w mod 256; 0x00; 0x00];
       Disconnect] /\
    link_up s' = false.
Proof.
  intros v h w Hans Hfits Hv Hh Hw.
  destruct (__aenter___state s) as
    (s1 & c & Henter & Hc & Hup & Hws & Hwr & Hble1 & Hcalls1 & Htr1).
  { intros k Hk. apply Hans. lia. }
  assert (Hgo : forall m, m <> Motor.HEAD ->
    _motor_command (droid s1) Direction.FORWARD m speed ramp_time 0
    = Val [0x29; 0x42; 0x05; 0x46; Motor.value m; v; h / 256; h mod 256; 0x00; 0x00]).
  { intros m Hm. rewrite _motor_command_frame.
    - subst v h. rewrite Hws, Hwr.
      destruct m; [reflexivity | reflexivity | contradiction].
    - rewrite Hws. destruct m; [exact Hv | exact Hv | contradiction].
    - rewrite Hwr. destruct m; [exact Hh | exact Hh | contradiction].
    - lia. }
  assert (Hw1 : 0 <= _wheel_ramp_time (droid s1) < 65536) by (rewrite Hwr; exact Hw).
  destruct (_move_wheels_run_state s1 c Direction.FORWARD Direction.FORWARD
              duration_ms speed speed ramp_time _ _ _ _ Hc
              ltac:(intros k Hk; rewrite Hble1, Hcalls1;
                    replace (k + (4 + calls s))%nat with ((4 + k) + calls s)%nat by lia;
                    apply Hans; lia)
              Hfits
              (Hgo Motor.LEFT ltac:(discriminate))
              (Hgo Motor.RIGHT ltac:(discriminate))
              (stop_command_bytes (droid s1) Motor.LEFT ltac:(discriminate) Hw1)
              (stop_command_bytes (droid s1) Motor.RIGHT ltac:(discriminate) Hw1))
    as (s2 & Hrun & Htr2 & Hc2 & Hble2 & Hcalls2).
  destruct (Hans 8%nat ltac:(lia)) as [r8 H8].
  assert (Hexit : __aexit__ s2
                  = Ok tt (record_call s2
                             {| address := address c; is_connected := is_connected c |}
                             Disconnect false)).
  { unfold __aexit__. rewrite Hc2. cbn [is_connected]. rewrite Hup.
    unfold bind, client_call, ret. rewrite Hc2.
    rewrite Hble2, Hcalls2, Hble1, Hcalls1.
    replace (4 + (4 + calls s))%nat with (8 + calls s)%nat by lia.
    rewrite H8. reflexivity. }
  eexists. split; [|split].
  - unfold async_with. rewrite Henter.
    change (R2_Unit.move_forward duration_ms speed ramp_time s1)
      with (_move_wheels Direction.FORWARD Direction.FORWARD duration_ms
              speed speed ramp_time s1).
    rewrite Hrun, Hexit. reflexivity.
  - cbn [trace record_call]. rewrite Htr2, Htr1, Hwr. unfold startup_calls.
    fold w. rewrite <- !app_assoc. reflexivity.
  - reflexivity.
Qed.

Lemma session_move_forward_trace_witness :
  exists s',
    async_with (R2_Unit.move_forward 1000 None None) (sample_sys unit steady)
    = Ok tt s' /\
    trace s' =
      [Connect; StartNotify 10;
       WriteGattChar 13 [0x22; 0x20; 0x01]; WriteGattChar 13 [0x22; 0x20; 0x01];
       WriteGattChar 13 [0x29; 0x42; 0x05; 0x46; 0x00; 0x60; 0x01; 0x2C; 0x00; 0x00];
       WriteGattChar 13 [0x29; 0x42; 0x05; 0x46; 0x01; 0x60; 0x01; 0x2C; 0x00; 0x00];
       Sleep 1000;
       WriteGattChar 13 [0x29; 0x42; 0x05; 0x46; 0x00; 0x00; 0x01; 0x2C; 0x00; 0x00];
       WriteGattChar 13 [0x29; 0x42; 0x05; 0x46; 0x01; 0x00; 0x01; 0x2C; 0x00; 0x00];
       Disconnect] /\
    link_up s' = false.
Proof.
  apply (session_move_forward_trace (sample_sys unit steady) 1000 None None);
    [intros k _; exists None; reflexivity | vm_compute; reflexivity
    | cbn; lia | cbn; lia | cbn; lia].
Defined.
